(** * Road-safety risk pipeline: a shallow embedding of [backend/api/routes.py]

    The development follows the order of the source file:
    the validation table and [validate_input], [calculate_risk_factors],
    [preprocess_input], [adjust_probability], [generate_recommendations]
    and the body of [predict].

    Data model.
    - A JSON request body is a Python [dict].  For [validate_input] it is
      a [gmap string json], where a [json] is any value of a parsed JSON
      document, and Python's [==] between such a value and an option of
      the table is written out ([validate_input_json]).  For the rest of
      the pipeline it is a [gmap string value], where a [value] is a JSON
      integer or a JSON string, the two kinds of scalars the enumerated
      domains are made of; [validate_input] is the validator on these
      requests, and the two validators agree on them.  A request may
      hold any number of other keys.
    - [predict] starts from the object [request.get_json()] has returned:
      a body that is missing, is not JSON or is not an object is not a
      request of the model.
    - A raised Python exception ([KeyError], [TypeError],
      [ZeroDivisionError]) is the result [None] of the option monad.
    - The one-row pandas [DataFrame] of [preprocess_input] is a
      [gmap string cell], updated column by column as the source does; its
      float cells are IEEE binary64 numbers ([PrimFloat]), like Python's.
    - The calibration arithmetic of [adjust_probability] and [predict]
      is carried out over the real numbers: Python's [pow] with the
      exponent [0.33] has no binary64 counterpart among the primitive
      operations, and the statements below are about the formulas.
    - The classifier is opaque: it is a function from the encoded vector
      to the raw probability, a parameter of [predict]. *)

From Stdlib Require Import ZArith Reals Lra Lia String Floats.
From stdpp Require Import gmap strings list fin_maps pretty.

(** ** JSON values and Python's operators on them *)

Inductive value :=
  | VInt (z : Z)
  | VStr (s : string).

#[global] Instance value_eq_dec : EqDecision value.
Proof. solve_decision. Defined.

(** [x in xs] for a Python list [xs]: some element is [==] to [x].  On
    integers and strings [==] is structural equality. *)
Definition py_in (x : value) (xs : list value) : bool :=
  bool_decide (x ∈ xs).

(** [str(x)], as the f-strings of the source interpolate a value. *)
Definition py_str (x : value) : string :=
  match x with
  | VInt z => pretty z
  | VStr s => s
  end.

(** [repr(x)] for the values of the option lists: a string is quoted with
    single quotes (none of the option strings needs an escape). *)
Definition py_repr (x : value) : string :=
  match x with
  | VInt z => pretty z
  | VStr s => "'" +:+ s +:+ "'"
  end.

Fixpoint join (sep : string) (l : list string) : string :=
  match l with
  | [] => ""
  | [s] => s
  | s :: l' => s +:+ sep +:+ join sep l'
  end.

(** [str(xs)] for a Python list: [[e1, e2, ...]] with the [repr] of each
    element. *)
Definition py_str_list (xs : list value) : string :=
  "[" +:+ join ", " (py_repr <$> xs) +:+ "]".

(** [data[field] > n] for an integer literal [n]: ordering a [str] against
    an [int] raises [TypeError]. *)
Definition py_gt_int (x : value) (n : Z) : option bool :=
  match x with
  | VInt z => Some (n <? z)%Z
  | VStr _ => None
  end.

(** [data[field] <= n]. *)
Definition py_le_int (x : value) (n : Z) : option bool :=
  match x with
  | VInt z => Some (z <=? n)%Z
  | VStr _ => None
  end.

(** [x != y] and [x == y]. *)
Definition py_ne (x y : value) : bool := bool_decide (x ≠ y).
Definition py_eq (x y : value) : bool := bool_decide (x = y).

(** ** Input validators *)

Record rules := Rules {
  options : list value;
  required : bool;
  error : string
}.

Definition INPUT_VALIDATORS : list (string * rules) :=
  [ ("road_type",
     {| options := [VInt 1; VInt 2; VInt 3; VInt 6];
        required := true;
        error := "Please select a valid road type (1: Residential, 2: Suburban, 3: Rural, 6: Urban)" |});
    ("weather_conditions",
     {| options := [VStr "Fine"; VStr "Rain"; VStr "Snow"; VStr "Fog"];
        required := true;
        error := "Please select valid weather conditions" |});
    ("speed_limit",
     {| options := [VInt 20; VInt 30; VInt 40; VInt 50; VInt 60; VInt 70];
        required := true;
        error := "Please select a valid speed limit" |});
    ("time_of_day",
     {| options := [VStr "Morning"; VStr "Afternoon"; VStr "Evening"; VStr "Night"];
        required := true;
        error := "Please select a valid time of day" |});
    ("junction_detail",
     {| options := [VStr "T Junction"; VStr "Crossroads"; VStr "Roundabout";
                    VStr "Not at junction"];
        required := true;
        error := "Please select a valid junction type" |}) ].

(** The generated message of the [elif] branch:
    [f"Invalid value for {field}. Options are: {rules['options']}"]. *)
Definition invalid_value_message (field : string) (r : rules) : string :=
  "Invalid value for " +:+ field +:+ ". Options are: " +:+ py_str_list (options r).

(** One iteration of the loop of [validate_input]. *)
Definition validate_field (data : gmap string value)
    (errors : gmap string string) (item : string * rules) : gmap string string :=
  let '(field, r) := item in
  if required r && bool_decide (data !! field = None) then
    <[field := error r]> errors
  else
    match data !! field with
    | Some v =>
        if negb (py_in v (options r)) then
          <[field := invalid_value_message field r]> errors
        else errors
    | None => errors
    end.

Definition validate_input (data : gmap string value) : gmap string string :=
  foldl (validate_field data) ∅ INPUT_VALIDATORS.

(** ** The validator on any JSON object *)

(** What [request.get_json()] hands to [validate_input]: the values of a
    parsed JSON document, as Python objects ([None], [bool], [int],
    [float], [str], [list], [dict]). *)
#[warnings="-register-all"] Inductive json :=
  | JNull
  | JBool (b : bool)
  | JInt (z : Z)
  | JFloat (f : float)
  | JStr (s : string)
  | JArr (items : list json)
  | JObj (members : list (string * json)).

(** An integer or a string of the narrower model, as a JSON value. *)
Definition to_json (x : value) : json :=
  match x with
  | VInt z => JInt z
  | VStr s => JStr s
  end.

(** [f == z] for a [float] and an [int]: Python compares the two numbers
    exactly, so they are equal when [f] is finite, integral and of value
    [z]. *)
Definition float_eq_int (f : float) (z : Z) : bool :=
  match Prim2SF f with
  | S754_zero _ => (z =? 0)%Z
  | S754_finite s m e =>
      let n := if s then Z.neg m else Z.pos m in
      if (0 <=? e)%Z then (z =? n * 2 ^ e)%Z
      else (n mod 2 ^ (- e) =? 0)%Z && (z =? n / 2 ^ (- e))%Z
  | _ => false
  end.

(** [x == o] for an option [o] of the table, an [int] or a [str]: a
    [bool] is an [int] ([True == 1], [False == 0]), a [float] equals the
    [int] of the same value, and values of any other two types are
    unequal. *)
Definition py_eq_option (x : json) (o : value) : bool :=
  match x, o with
  | JInt z, VInt z' => bool_decide (z = z')
  | JBool b, VInt z' => bool_decide ((if b then 1 else 0)%Z = z')
  | JFloat f, VInt z' => float_eq_int f z'
  | JStr s, VStr s' => bool_decide (s = s')
  | _, _ => false
  end.

(** [x in rules['options']]: some option is [==] to [x]. *)
Definition py_in_options (x : json) (os : list value) : bool :=
  existsb (py_eq_option x) os.

(** One iteration of the loop of [validate_input], on a JSON object. *)
Definition validate_field_json (data : gmap string json)
    (errors : gmap string string) (item : string * rules) : gmap string string :=
  let '(field, r) := item in
  if required r && bool_decide (data !! field = None) then
    <[field := error r]> errors
  else
    match data !! field with
    | Some v =>
        if negb (py_in_options v (options r)) then
          <[field := invalid_value_message field r]> errors
        else errors
    | None => errors
    end.

(** [validate_input] on any JSON object. *)
Definition validate_input_json (data : gmap string json) : gmap string string :=
  foldl (validate_field_json data) ∅ INPUT_VALIDATORS.

(** ** Risk factors *)

Definition road_type_desc : list (Z * string) :=
  [ (6, "Urban area with high traffic");
    (3, "Rural road with potential hazards");
    (2, "Suburban area with moderate traffic");
    (1, "Residential area with lower traffic") ]%Z.

(** [d.get(k)] on a dict written as a literal with distinct keys. *)
Fixpoint assoc {A B} `{EqDecision A} (k : A) (d : list (A * B)) : option B :=
  match d with
  | [] => None
  | (k', v) :: d' => if decide (k = k') then Some v else assoc k d'
  end.

(** [road_type_desc.get(x)]: a string is never a key of the table. *)
Definition road_type_desc_get (x : value) : option string :=
  match x with
  | VInt z => assoc z road_type_desc
  | VStr _ => None
  end.

Definition calculate_risk_factors (data : gmap string value) : option (list string) :=
  let risk_factors : list string := [] in
  (* Time-based risks *)
  time_of_day ← data !! "time_of_day";
  let risk_factors :=
    if py_in time_of_day [VStr "Night"; VStr "Evening"]
    then risk_factors ++ ["Limited visibility during night/evening hours"]
    else risk_factors in
  (* Weather-based risks *)
  weather ← data !! "weather_conditions";
  let risk_factors :=
    if py_ne weather (VStr "Fine")
    then risk_factors ++ ["Adverse weather conditions (" +:+ py_str weather +:+ ")"]
    else risk_factors in
  (* Speed-based risks *)
  speed_limit ← data !! "speed_limit";
  high ← py_gt_int speed_limit 40;
  let risk_factors :=
    if (high : bool) then risk_factors ++ ["High speed zone"] else risk_factors in
  (* Junction-based risks *)
  junction ← data !! "junction_detail";
  let risk_factors :=
    if py_ne junction (VStr "Not at junction")
    then risk_factors ++ ["Complex junction type (" +:+ py_str junction +:+ ")"]
    else risk_factors in
  (* Road type risks *)
  road_type ← data !! "road_type";
  let risk_factors :=
    match road_type_desc_get road_type with
    | Some desc =>
        if py_in road_type [VInt 6; VInt 3]
        then risk_factors ++ [desc]
        else risk_factors
    | None => risk_factors
    end in
  Some risk_factors.

(** ** Feature encoding *)

(** A cell of the one-row data frame.  Float cells are binary64 numbers. *)
Inductive cell :=
  | CInt (z : Z)
  | CStr (s : string)
  | CFloat (f : float).

Definition of_value (v : value) : cell :=
  match v with
  | VInt z => CInt z
  | VStr s => CStr s
  end.

(** [float(z)] for an integer of the int64 range. *)
Definition Z2float (z : Z) : float :=
  if (z <? 0)%Z then PrimFloat.opp (PrimFloat.of_uint63 (Uint63.of_Z (- z)))
  else PrimFloat.of_uint63 (Uint63.of_Z z).

(** The interpolation of a cell in an f-string.  The only cell the source
    interpolates is [df['road_type'].values[0]], read while the frame has
    integer and string columns only. *)
Definition cell_str (c : cell) : option string :=
  match c with
  | CInt z => Some (pretty z)
  | CStr s => Some s
  | CFloat _ => None
  end.

(** [column.astype(float)]: defined here on numeric columns, the only ones
    a validated request or the zero initialisation puts at [speed_limit]. *)
Definition astype_float (c : cell) : option float :=
  match c with
  | CInt z => Some (Z2float z)
  | CFloat f => Some f
  | CStr _ => None
  end.

(** [c > n] for an integer literal [n]. *)
Definition cell_gt_int (c : cell) (n : Z) : option bool :=
  match c with
  | CInt z => Some (n <? z)%Z
  | CFloat f => Some (PrimFloat.ltb (Z2float n) f)
  | CStr _ => None
  end.

(** Column arithmetic [a + b] and [a * b] on numeric cells. *)
Definition cell_add (a b : cell) : option cell :=
  match a, b with
  | CInt x, CInt y => Some (CInt (x + y))
  | CInt x, CFloat y => Some (CFloat (PrimFloat.add (Z2float x) y))
  | CFloat x, CInt y => Some (CFloat (PrimFloat.add x (Z2float y)))
  | CFloat x, CFloat y => Some (CFloat (PrimFloat.add x y))
  | _, _ => None
  end.

Definition cell_mul (a b : cell) : option cell :=
  match a, b with
  | CInt x, CInt y => Some (CInt (x * y))
  | CInt x, CFloat y => Some (CFloat (PrimFloat.mul (Z2float x) y))
  | CFloat x, CInt y => Some (CFloat (PrimFloat.mul x (Z2float y)))
  | CFloat x, CFloat y => Some (CFloat (PrimFloat.mul x y))
  | _, _ => None
  end.

Definition cell_in (c : cell) (xs : list string) : bool :=
  match c with
  | CStr s => bool_decide (s ∈ xs)
  | _ => false
  end.

Definition cell_ne (c : cell) (s : string) : bool :=
  match c with
  | CStr s' => bool_decide (s' ≠ s)
  | _ => true
  end.

Definition weather_map : list (string * Z) :=
  [ ("Fine", 1); ("Rain", 2); ("Snow", 3); ("Fog", 4) ]%Z.

Definition time_to_light : list (string * Z) :=
  [ ("Morning", 1); ("Afternoon", 1); ("Evening", 4); ("Night", 4) ]%Z.

Definition junction_map : list (string * Z) :=
  [ ("Not at junction", 0); ("T Junction", 1); ("Crossroads", 2); ("Roundabout", 3) ]%Z.

(** [d.get(c, default)] for a dict with string keys and a cell [c]. *)
Definition get_default (d : list (string * Z)) (c : cell) (dflt : Z) : Z :=
  match c with
  | CStr s => default dflt (assoc s d)
  | _ => dflt
  end.

Definition bool_cell (b : bool) : cell := CInt (if b then 1 else 0).

Section Encoder.
(** The feature schema stored in the model artifact. *)
Variable feature_names : list string.

Definition preprocess_input (data : gmap string value) : option (list (string * cell)) :=
  (* Create DataFrame with input data *)
  let df : gmap string cell := of_value <$> data in
  (* Initialize all features to 0 *)
  let df := foldl (λ df feature, <[feature := CInt 0]> df) df feature_names in
  (* Create one-hot encoded columns for road_type *)
  road_type ← df !! "road_type";
  road_type ← cell_str road_type;
  let df := <["road_type_" +:+ road_type := CInt 1]> df in
  (* Map weather conditions to numeric codes *)
  weather ← df !! "weather_conditions";
  let weather_code := get_default weather_map weather 1 in
  let df := <["weather_conditions_" +:+ pretty weather_code := CInt 1]> df in
  (* Map time of day to light conditions *)
  time_of_day ← df !! "time_of_day";
  let light_code := get_default time_to_light time_of_day 1 in
  let df := <["light_conditions_" +:+ pretty light_code := CInt 1]> df in
  (* Map junction detail *)
  junction ← df !! "junction_detail";
  let junction_code := get_default junction_map junction 0 in
  let df := <["junction_detail_" +:+ pretty junction_code := CInt 1]> df in
  (* Add speed limit (normalized) *)
  speed ← df !! "speed_limit";
  speed ← astype_float speed;
  let df := <["speed_limit" := CFloat (speed / 70)%float]> df in
  (* Add derived risk factors *)
  let df := <["number_of_vehicles" := CInt 1]> df in
  let df := <["number_of_casualties" := CInt 0]> df in
  let df := <["casualty_rate" := CInt 0]> df in
  weather ← df !! "weather_conditions";
  let df := <["weather_risk" := bool_cell (cell_ne weather "Fine")]> df in
  weather ← df !! "weather_conditions";
  let df := <["surface_risk" := bool_cell (cell_in weather ["Rain"; "Snow"])]> df in
  weather_risk ← df !! "weather_risk";
  surface_risk ← df !! "surface_risk";
  combined ← cell_add weather_risk surface_risk;
  let df := <["combined_risk" := combined]> df in
  time_of_day ← df !! "time_of_day";
  let df := <["is_night" := bool_cell (cell_in time_of_day ["Night"; "Evening"])]> df in
  time_of_day ← df !! "time_of_day";
  let df := <["is_rush_hour" := bool_cell (cell_in time_of_day ["Morning"; "Evening"])]> df in
  let df := <["is_weekend" := CInt 0]> df in
  speed ← df !! "speed_limit";
  high ← cell_gt_int speed 40;
  let df := <["high_speed" := bool_cell high]> df in
  is_night ← df !! "is_night";
  high_speed ← df !! "high_speed";
  night_speed ← cell_mul is_night high_speed;
  let df := <["night_speed_risk" := night_speed]> df in
  weather_risk ← df !! "weather_risk";
  high_speed ← df !! "high_speed";
  weather_speed ← cell_mul weather_risk high_speed;
  let df := <["weather_speed_risk" := weather_speed]> df in
  (* df[feature_names] *)
  mapM (λ feature, c ← df !! feature; Some (feature, c)) feature_names.

End Encoder.

(** ** Probability calibration *)

Section Calibration.
Local Open Scope R_scope.

(** [pow(x, y)] for a float [x] and a positive exponent [y] that is not
    an integer.  On a negative [x] Python answers a complex number, and
    the ordering comparison that follows it in the source raises
    [TypeError]. *)
Definition py_pow (x y : R) : option R :=
  if Rlt_dec x 0 then None
  else if Req_dec_T x 0 then Some 0
  else Some (Rpower x y).

(** [max(a, b)] and [min(a, b)] of two numbers: the first argument is
    kept unless the second is strictly better. *)
Definition py_max (a b : R) : R := if Rlt_dec a b then b else a.
Definition py_min (a b : R) : R := if Rlt_dec b a then b else a.

Definition adjust_probability (prob : R) : option R :=
  (* First, adjust for the scale_pos_weight bias *)
  let denominator := prob * 0.5 + (1 - prob) in
  if Req_dec_T denominator 0 then None else
  let adjusted := (prob * 0.5) / denominator in
  (* Apply a more aggressive transformation *)
  final_prob ←
    (if Rlt_dec 0.5 adjusted then
       let normalized := (adjusted - 0.5) * 2 in
       let transformed := normalized ^ 5 in
       Some (0.2 + (transformed * 0.7))
     else
       let normalized := adjusted * 2 in
       root ← py_pow normalized 0.33;
       Some (0.2 * root));
  (* Add risk-based adjustments with reduced impact for low probabilities *)
  let base_diff := Rabs (prob - 0.5) in
  let final_prob :=
    if Rlt_dec final_prob 0.4
    then final_prob + base_diff * 0.02
    else final_prob + base_diff * 0.05 in
  Some (py_min (py_max final_prob 0) 1).

(** The base risk score that [predict] accumulates from the request. *)
Definition base_risk_score (data : gmap string value) : option R :=
  let base_risk_score := 0 in
  speed_limit ← data !! "speed_limit";
  high ← py_gt_int speed_limit 40;
  let base_risk_score :=
    if (high : bool) then base_risk_score + 0.1 else base_risk_score in
  time_of_day ← data !! "time_of_day";
  let base_risk_score :=
    if py_in time_of_day [VStr "Night"; VStr "Evening"]
    then base_risk_score + 0.1 else base_risk_score in
  weather ← data !! "weather_conditions";
  let base_risk_score :=
    if py_ne weather (VStr "Fine")
    then base_risk_score + 0.1 else base_risk_score in
  junction ← data !! "junction_detail";
  let base_risk_score :=
    if py_ne junction (VStr "Not at junction")
    then base_risk_score + 0.1 else base_risk_score in
  road_type ← data !! "road_type";
  let base_risk_score :=
    if py_in road_type [VInt 6; VInt 3]
    then base_risk_score + 0.1 else base_risk_score in
  Some base_risk_score.

(** [RISK_THRESHOLDS['high']]. *)
Definition RISK_THRESHOLDS_high : R := 0.70.

(** Blend with base risk score. *)
Definition final_probability (adjusted_probability base_risk_score : R) : R :=
  (adjusted_probability * 0.7) + (base_risk_score * 0.3).

(** Determine risk level based on probability threshold. *)
Definition risk_level (final_probability : R) : string :=
  if Rlt_dec RISK_THRESHOLDS_high final_probability
  then "High Risk" else "Not High Risk".

End Calibration.

(** ** Recommendations *)

Definition generate_recommendations (data : gmap string value)
    (risk_level : string) (risk_factors : list string) : option (list string) :=
  let recommendations : list string := [] in
  recommendations ←
    (if bool_decide (risk_level = "High Risk") then
       speed_limit ← data !! "speed_limit";
       high ← py_gt_int speed_limit 40;
       let recommendations :=
         if (high : bool)
         then recommendations ++ ["Consider reducing speed limit in this area"]
         else recommendations in
       junction ← data !! "junction_detail";
       let recommendations :=
         if py_ne junction (VStr "Not at junction")
         then recommendations ++ ["Install traffic monitoring cameras at the junction"]
         else recommendations in
       time_of_day ← data !! "time_of_day";
       let recommendations :=
         if py_in time_of_day [VStr "Night"; VStr "Evening"]
         then recommendations ++ ["Improve street lighting conditions"]
         else recommendations in
       weather ← data !! "weather_conditions";
       let recommendations :=
         if py_ne weather (VStr "Fine")
         then recommendations ++
                ["Install weather warning signs for " +:+ py_str weather +:+ " conditions"]
         else recommendations in
       let recommendations :=
         if (0 <? length risk_factors)%nat
         then recommendations ++ ["Increase police patrols in the area"]
         else recommendations in
       Some recommendations
     else (* Not High Risk *)
       junction ← data !! "junction_detail";
       let recommendations :=
         if py_ne junction (VStr "Not at junction")
         then recommendations ++ ["Consider additional signage at the junction"]
         else recommendations in
       weather ← data !! "weather_conditions";
       let recommendations :=
         if py_ne weather (VStr "Fine")
         then recommendations ++ ["Ensure regular road maintenance"]
         else recommendations in
       time_of_day ← data !! "time_of_day";
       let recommendations :=
         if py_in time_of_day [VStr "Night"; VStr "Evening"]
         then recommendations ++ ["Consider enhanced road markings"]
         else recommendations in
       let recommendations :=
         if (0 <? length risk_factors)%nat
         then recommendations ++ ["Monitor conditions and maintain current safety measures"]
         else recommendations ++ ["Continue regular maintenance and monitoring"] in
       road_type ← data !! "road_type";
       let recommendations :=
         if py_eq road_type (VInt 1)
         then recommendations ++ ["Maintain residential area safety features"]
         else recommendations in
       speed_limit ← data !! "speed_limit";
       low ← py_le_int speed_limit 30;
       let recommendations :=
         if (low : bool)
         then recommendations ++ ["Current speed restrictions are appropriate"]
         else recommendations in
       Some recommendations);
  Some (match recommendations with
        | [] => ["No specific recommendations needed at this time"]
        | _ => recommendations
        end).

(** ** The [/predict] endpoint *)

(** The JSON payloads of the endpoint with their status codes.  The two
    probabilities of the success payload are kept as numbers; the source
    renders them as percentages when it builds the payload. *)
Inductive response :=
  | Response200 (risk_level : string) (probability raw_probability : R)
      (risk_factors recommendations : list string) (input_data : gmap string value)
  | Response400 (error : string) (details : option (gmap string string))
  | Response500 (error : string).

Section Predict.
(** The classifier of the model artifact, [None] when loading failed,
    and the feature schema stored beside it.  The classifier is opaque:
    [predict_proba] stands for [model.predict_proba(...)[0, 1]]. *)
Variable model : option (list (string * cell) → R).
Variable feature_names : list string.

Definition predict (data : gmap string value) : response :=
  match model with
  | None => Response500 "Model not loaded. Please try again later."
  | Some predict_proba =>
      (* Validate input data *)
      if bool_decide (data = ∅) then Response400 "No data provided" None
      else
        let validation_errors := validate_input data in
        if bool_decide (validation_errors ≠ ∅) then
          Response400 "Invalid input data" (Some validation_errors)
        else
          default (Response500 "Failed to process prediction")
            ((* Preprocess input data *)
             processed_data ← preprocess_input feature_names data;
             (* Make prediction *)
             let raw_probability := predict_proba processed_data in
             (* Calculate base risk score from input features *)
             base_risk_score ← base_risk_score data;
             (* Adjust probability for model bias *)
             adjusted_probability ← adjust_probability raw_probability;
             (* Blend with base risk score *)
             let final_probability :=
               final_probability adjusted_probability base_risk_score in
             (* Determine risk level based on probability threshold *)
             let risk_level := risk_level final_probability in
             (* Calculate risk factors *)
             risk_factors ← calculate_risk_factors data;
             (* Generate recommendations *)
             recommendations ← generate_recommendations data risk_level risk_factors;
             Some (Response200 risk_level final_probability raw_probability
                     risk_factors recommendations data))
  end.

End Predict.

(** * The vocabulary of the specification

    The definitions of this part are not translations of the source:
    they word the data model and the rules of the specification, or name
    an intermediate state of a source function, and the properties below
    relate them to the program. *)

(** ** Validation *)

(** The invariant of a request of the data model (section 3 of the
    specification): every field of the table is present and holds one of
    its options. *)
Definition valid_request (data : gmap string value) : Prop :=
  ∀ field r, (field, r) ∈ INPUT_VALIDATORS →
    ∃ v, data !! field = Some v ∧ v ∈ options r.

(** Section 4.1 of the specification: the entry one field contributes to
    the errors, none, the fixed message when the field is required and
    absent, or the generated message when its value is outside the
    options. *)
Definition field_error (data : gmap string value) (field : string) (r : rules)
    : option string :=
  match data !! field with
  | None => if required r then Some (error r) else None
  | Some v => if py_in v (options r) then None else Some (invalid_value_message field r)
  end.




(** The value is equal to a member of the enumerated set, as Python's
    [==] has it. *)
Definition accepted (v : json) (dom : list value) : Prop :=
  ∃ o, o ∈ dom ∧ py_eq_option v o = true.




(** The request of the scenario of section 8, sent with the boolean
    [true] as its road type. *)
Definition boolean_road_type : gmap string json :=
  <["road_type" := JBool true]>
  (<["weather_conditions" := JStr "Rain"]>
  (<["speed_limit" := JInt 50]>
  (<["time_of_day" := JStr "Night"]>
  (<["junction_detail" := JStr "Crossroads"]> ∅)))).

(** ** Requests *)

(** The request of the data model (section 3 of the specification): the
    five fields with their types. *)
Record RequestInput := {
  road_type : Z;
  weather_conditions : string;
  speed_limit : Z;
  time_of_day : string;
  junction_detail : string
}.

(** The raw request [data] carries the five fields of [req]. *)
Definition carries (data : gmap string value) (req : RequestInput) : Prop :=
  data !! "road_type" = Some (VInt (road_type req)) ∧
  data !! "weather_conditions" = Some (VStr (weather_conditions req)) ∧
  data !! "speed_limit" = Some (VInt (speed_limit req)) ∧
  data !! "time_of_day" = Some (VStr (time_of_day req)) ∧
  data !! "junction_detail" = Some (VStr (junction_detail req)).

(** Every field lies in its enumerated set. *)
Definition in_domain (req : RequestInput) : Prop :=
  road_type req ∈ [1; 2; 3; 6]%Z ∧
  weather_conditions req ∈ ["Fine"; "Rain"; "Snow"; "Fog"] ∧
  speed_limit req ∈ [20; 30; 40; 50; 60; 70]%Z ∧
  time_of_day req ∈ ["Morning"; "Afternoon"; "Evening"; "Night"] ∧
  junction_detail req ∈ ["T Junction"; "Crossroads"; "Roundabout"; "Not at junction"].

(** The raw request a typed request is sent as. *)
Definition to_data (req : RequestInput) : gmap string value :=
  <["road_type" := VInt (road_type req)]>
  (<["weather_conditions" := VStr (weather_conditions req)]>
  (<["speed_limit" := VInt (speed_limit req)]>
  (<["time_of_day" := VStr (time_of_day req)]>
  (<["junction_detail" := VStr (junction_detail req)]> ∅)))).

(** ** Ordered rule sets *)

(** A rule is a condition with the entry it contributes; an ordered rule
    set yields the entries of the rules whose condition holds, in the order
    of the rules. *)
Definition fired (rs : list (bool * string)) : list string :=
  flat_map (λ r : bool * string, if r.1 then [r.2] else []) rs.

(** Section 4.6 of the specification: the rules of the risk-factor
    analysis, in their fixed order. *)
Definition risk_factor_rules (req : RequestInput) : list (bool * string) :=
  [ (bool_decide (time_of_day req ∈ ["Night"; "Evening"]),
     "Limited visibility during night/evening hours");
    (bool_decide (weather_conditions req ≠ "Fine"),
     "Adverse weather conditions (" +:+ weather_conditions req +:+ ")");
    ((40 <? speed_limit req)%Z,
     "High speed zone");
    (bool_decide (junction_detail req ≠ "Not at junction"),
     "Complex junction type (" +:+ junction_detail req +:+ ")");
    (bool_decide (road_type req ∈ [6; 3]%Z),
     if decide (road_type req = 6%Z) then "Urban area with high traffic"
     else "Rural road with potential hazards") ].

Definition analyze (req : RequestInput) : list string :=
  fired (risk_factor_rules req).

(** Section 4.7 of the specification: the rule set of a High Risk
    result, in evaluation order. *)
Definition high_risk_rules (req : RequestInput) (risk_factors : list string)
    : list (bool * string) :=
  [ ((40 <? speed_limit req)%Z,
     "Consider reducing speed limit in this area");
    (bool_decide (junction_detail req ≠ "Not at junction"),
     "Install traffic monitoring cameras at the junction");
    (bool_decide (time_of_day req ∈ ["Night"; "Evening"]),
     "Improve street lighting conditions");
    (bool_decide (weather_conditions req ≠ "Fine"),
     "Install weather warning signs for " +:+ weather_conditions req +:+ " conditions");
    (bool_decide (risk_factors ≠ []),
     "Increase police patrols in the area") ].

(** Section 4.7 of the specification: the rule set of a result that is
    not High Risk, in evaluation order. *)
Definition not_high_risk_rules (req : RequestInput) (risk_factors : list string)
    : list (bool * string) :=
  [ (bool_decide (junction_detail req ≠ "Not at junction"),
     "Consider additional signage at the junction");
    (bool_decide (weather_conditions req ≠ "Fine"),
     "Ensure regular road maintenance");
    (bool_decide (time_of_day req ∈ ["Night"; "Evening"]),
     "Consider enhanced road markings");
    (bool_decide (risk_factors ≠ []),
     "Monitor conditions and maintain current safety measures");
    (bool_decide (risk_factors = []),
     "Continue regular maintenance and monitoring");
    (bool_decide (road_type req = 1%Z),
     "Maintain residential area safety features");
    ((speed_limit req <=? 30)%Z,
     "Current speed restrictions are appropriate") ].

Definition recommendation_rules (req : RequestInput) (level : string)
    (risk_factors : list string) : list (bool * string) :=
  if decide (level = "High Risk") then high_risk_rules req risk_factors
  else not_high_risk_rules req risk_factors.

Definition fallback : list string :=
  ["No specific recommendations needed at this time"].

(** The recommendations: what the rule set of the level fires, or the
    fallback message when it fires nothing. *)
Definition recommend (req : RequestInput) (level : string)
    (risk_factors : list string) : list string :=
  match fired (recommendation_rules req level risk_factors) with
  | [] => fallback
  | recs => recs
  end.

(** ** Frames of the encoder *)

(** The frames below name intermediate states of [preprocess_input];
    the properties relate them to the function. *)

(** The frame after the zero initialisation of the schema features. *)
Definition init_frame (feature_names : list string) (data : gmap string value)
    : gmap string cell :=
  foldl (λ df feature, <[feature := CInt 0]> df) (of_value <$> data) feature_names.

(** The frame [preprocess_input] has built when it selects the schema
    columns, given what it read from the initialised frame [df]: the
    interpolated road type [r], the cells [w], [t] and [j] of the weather,
    time-of-day and junction columns and the float [s] of the speed
    column. *)
Definition encoded_frame (df : gmap string cell) (r : string) (w t j : cell) (s : float)
    : gmap string cell :=
  let weather_risk := cell_ne w "Fine" in
  let surface_risk := cell_in w ["Rain"; "Snow"] in
  let is_night := cell_in t ["Night"; "Evening"] in
  let high_speed := PrimFloat.ltb (Z2float 40) (s / 70)%float in
  <["weather_speed_risk" :=
      CInt ((if weather_risk then 1 else 0) * (if high_speed then 1 else 0))]>
  (<["night_speed_risk" :=
      CInt ((if is_night then 1 else 0) * (if high_speed then 1 else 0))]>
  (<["high_speed" := bool_cell high_speed]>
  (<["is_weekend" := CInt 0]>
  (<["is_rush_hour" := bool_cell (cell_in t ["Morning"; "Evening"])]>
  (<["is_night" := bool_cell is_night]>
  (<["combined_risk" :=
      CInt ((if weather_risk then 1 else 0) + (if surface_risk then 1 else 0))]>
  (<["surface_risk" := bool_cell surface_risk]>
  (<["weather_risk" := bool_cell weather_risk]>
  (<["casualty_rate" := CInt 0]>
  (<["number_of_casualties" := CInt 0]>
  (<["number_of_vehicles" := CInt 1]>
  (<["speed_limit" := CFloat (s / 70)%float]>
  (<["junction_detail_" +:+ pretty (get_default junction_map j 0) := CInt 1]>
  (<["light_conditions_" +:+ pretty (get_default time_to_light t 1) := CInt 1]>
  (<["weather_conditions_" +:+ pretty (get_default weather_map w 1) := CInt 1]>
  (<["road_type_" +:+ r := CInt 1]> df)))))))))))))))).

(** The value of a named feature in an encoded vector. *)
Definition feature (out : list (string * cell)) (name : string) : option cell :=
  assoc name out.

(** What [preprocess_input] reads back from the initialised frame for a
    field of the request: the zero of the initialisation when the field
    name is itself a schema feature, the request's value otherwise. *)
Definition read_back (fn : list string) (field : string) (c : cell) : cell :=
  if decide (field ∈ fn) then CInt 0 else c.

Definition read_back_Z (fn : list string) (field : string) (z : Z) : Z :=
  if decide (field ∈ fn) then 0%Z else z.

(** The frame of a request that carries the five fields. *)
Definition request_frame (fn : list string) (data : gmap string value)
    (req : RequestInput) : gmap string cell :=
  encoded_frame (init_frame fn data)
    (pretty (read_back_Z fn "road_type" (road_type req)))
    (read_back fn "weather_conditions" (CStr (weather_conditions req)))
    (read_back fn "time_of_day" (CStr (time_of_day req)))
    (read_back fn "junction_detail" (CStr (junction_detail req)))
    (Z2float (read_back_Z fn "speed_limit" (speed_limit req))).

(** The columns [preprocess_input] writes after the initialisation. *)
Definition written_columns (r : string) (w t j : cell) : list string :=
  [ "road_type_" +:+ r;
    "weather_conditions_" +:+ pretty (get_default weather_map w 1);
    "light_conditions_" +:+ pretty (get_default time_to_light t 1);
    "junction_detail_" +:+ pretty (get_default junction_map j 0);
    "speed_limit"; "number_of_vehicles"; "number_of_casualties"; "casualty_rate";
    "weather_risk"; "surface_risk"; "combined_risk"; "is_night"; "is_rush_hour";
    "is_weekend"; "high_speed"; "night_speed_risk"; "weather_speed_risk" ].

(** The one-hot code of each group, as [preprocess_input] derives it. *)
Definition weather_code (fn : list string) (req : RequestInput) : Z :=
  get_default weather_map (read_back fn "weather_conditions" (CStr (weather_conditions req))) 1.
Definition light_code (fn : list string) (req : RequestInput) : Z :=
  get_default time_to_light (read_back fn "time_of_day" (CStr (time_of_day req))) 1.
Definition junction_code (fn : list string) (req : RequestInput) : Z :=
  get_default junction_map (read_back fn "junction_detail" (CStr (junction_detail req))) 0.

(** ** Calibration *)

Section CalibrationSpec.
Local Open Scope R_scope.

(** The real power [x^y] of a base [0 <= x] with a positive exponent. *)
Definition power (x y : R) : R :=
  if Req_dec_T x 0 then 0 else Rpower x y.

Definition clamp (lo hi x : R) : R := Rmax lo (Rmin hi x).

(** Section 4.4 of the specification: the stages of the calibrator, the
    bias correction, the nonlinear remap, the additive correction and the
    clamp. *)
Definition bias_corrected (raw : R) : R :=
  (raw * 0.5) / (raw * 0.5 + (1 - raw)).

Definition remapped (raw : R) : R :=
  let adjusted := bias_corrected raw in
  if Rlt_dec 0.5 adjusted
  then 0.2 + ((adjusted - 0.5) * 2) ^ 5 * 0.7
  else 0.2 * power (adjusted * 2) 0.33.

Definition correction (raw : R) : R :=
  if Rlt_dec (remapped raw) 0.4
  then Rabs (raw - 0.5) * 0.02
  else Rabs (raw - 0.5) * 0.05.

Definition calibrated (raw : R) : R :=
  clamp 0 1 (remapped raw + correction raw).

(** Section 4.4 of the specification: the five trigger conditions of the
    base risk score. *)
Definition base_risk_triggers (req : RequestInput) : list bool :=
  [ (40 <? speed_limit req)%Z;
    bool_decide (time_of_day req ∈ ["Night"; "Evening"]);
    bool_decide (weather_conditions req ≠ "Fine");
    bool_decide (junction_detail req ≠ "Not at junction");
    bool_decide (road_type req ∈ [6; 3]%Z) ].

(** The number of conditions that hold. *)
Definition count_true (bs : list bool) : nat :=
  length (List.filter (λ b : bool, b) bs).

End CalibrationSpec.

(** ** Scenarios *)

(** The scenario request of the specification: an urban crossroads on a
    rainy night in a 50 zone. *)
Definition scenario : RequestInput :=
  {| road_type := 6; weather_conditions := "Rain"; speed_limit := 50;
     time_of_day := "Night"; junction_detail := "Crossroads" |}.

(** The quiet scenario: a residential road on a fine morning in a 20
    zone, away from any junction. *)
Definition quiet_scenario : RequestInput :=
  {| road_type := 1; weather_conditions := "Fine"; speed_limit := 20;
     time_of_day := "Morning"; junction_detail := "Not at junction" |}.

(** A schema with the one-hot groups and the derived features. *)
Definition derived_schema : list string :=
  [ "road_type_1"; "road_type_2"; "road_type_3"; "road_type_6";
    "weather_conditions_1"; "weather_conditions_2"; "weather_conditions_3";
    "weather_conditions_4"; "light_conditions_1"; "light_conditions_4";
    "junction_detail_0"; "junction_detail_1"; "junction_detail_2"; "junction_detail_3";
    "weather_risk"; "surface_risk"; "combined_risk"; "is_night"; "is_rush_hour";
    "is_weekend"; "high_speed"; "night_speed_risk"; "weather_speed_risk" ].

(** The same schema with the continuous [speed_limit] feature in front. *)
Definition speed_schema : list string := "speed_limit" :: derived_schema.

(** ** Derived features and raw columns *)

(** The derived features of a request, as lines 155 to 163 of the source
    set them. *)
Definition derived_features (req : RequestInput) : list (string * cell) :=
  let weather_risk := bool_decide (weather_conditions req ≠ "Fine") in
  let surface_risk := bool_decide (weather_conditions req ∈ ["Rain"; "Snow"]) in
  [ ("number_of_vehicles", CInt 1);
    ("number_of_casualties", CInt 0);
    ("casualty_rate", CInt 0);
    ("weather_risk", bool_cell weather_risk);
    ("surface_risk", bool_cell surface_risk);
    ("combined_risk",
     CInt ((if weather_risk then 1 else 0) + (if surface_risk then 1 else 0)));
    ("is_night", bool_cell (bool_decide (time_of_day req ∈ ["Night"; "Evening"])));
    ("is_rush_hour", bool_cell (bool_decide (time_of_day req ∈ ["Morning"; "Evening"])));
    ("is_weekend", CInt 0) ].

(** The names of the five columns of a request. *)
Definition raw_columns : list string :=
  ["road_type"; "weather_conditions"; "time_of_day"; "junction_detail"; "speed_limit"].

(** * Properties *)

(** ** Association lists *)

Lemma assoc_None {A B} `{EqDecision A} (k : A) (d : list (A * B)) :
  assoc k d = None ↔ k ∉ d.*1.
Proof.
  induction d as [|[k' v] d IH]; simpl.
  - split; [intros _; apply not_elem_of_nil | done].
  - rewrite not_elem_of_cons. destruct (decide (k = k')) as [->|Hne].
    + split; [done | intros [? _]; done].
    + rewrite IH. tauto.
Qed.

Lemma assoc_Some {A B} `{EqDecision A} (k : A) (v : B) (d : list (A * B)) :
  NoDup d.*1 → assoc k d = Some v ↔ (k, v) ∈ d.
Proof.
  induction d as [|[k' v'] d IH]; simpl; intros Hnd.
  - split; [done | intros H; by apply elem_of_nil in H].
  - apply NoDup_cons in Hnd as [Hk' Hnd]. rewrite elem_of_cons.
    destruct (decide (k = k')) as [->|Hne].
    + split; [intros [= ->]; by left |].
      intros [[= ->]|Hin]; [done|].
      exfalso. apply Hk'. apply list_elem_of_fmap. by exists (k', v).
    + rewrite (IH Hnd). split; [by right | intros [[= -> _]|]; done].
Qed.

(** ** The validator *)

Lemma validate_field_lookup data errors field r f :
  validate_field data errors (field, r) !! f =
  if decide (field = f)
  then from_option Some (errors !! f) (field_error data field r)
  else errors !! f.
Proof.
  unfold validate_field, field_error.
  destruct (data !! field) as [v|] eqn:Hd; simpl.
  - rewrite andb_false_r. unfold py_in.
    destruct (bool_decide (v ∈ options r)); simpl;
      destruct (decide (field = f)) as [->|Hne]; simpl; try done.
    + by rewrite lookup_insert_eq.
    + by rewrite lookup_insert_ne.
  - rewrite andb_true_r.
    destruct (required r); simpl;
      destruct (decide (field = f)) as [->|Hne]; simpl; try done.
    + by rewrite lookup_insert_eq.
    + by rewrite lookup_insert_ne.
Qed.

Lemma validate_fold_lookup data vs :
  NoDup vs.*1 → ∀ errors f,
  foldl (validate_field data) errors vs !! f =
  match assoc f vs with
  | Some r => from_option Some (errors !! f) (field_error data f r)
  | None => errors !! f
  end.
Proof.
  induction vs as [|[field r] vs IH]; intros Hnd errors f; [done|].
  rewrite fmap_cons in Hnd. apply NoDup_cons in Hnd as [Hfresh Hnd].
  cbn [fst] in Hfresh.
  cbn [foldl assoc]. rewrite (IH Hnd), validate_field_lookup.
  destruct (decide (f = field)) as [->|Hne].
  - rewrite decide_True by done.
    apply assoc_None in Hfresh. by rewrite Hfresh.
  - rewrite decide_False by done. done.
Qed.

Lemma INPUT_VALIDATORS_NoDup : NoDup INPUT_VALIDATORS.*1.
Proof. compute_done. Qed.

Lemma validate_input_lookup data f :
  validate_input data !! f =
  r ← assoc f INPUT_VALIDATORS; field_error data f r.
Proof.
  unfold validate_input.
  rewrite (validate_fold_lookup data _ INPUT_VALIDATORS_NoDup), lookup_empty.
  destruct (assoc f INPUT_VALIDATORS) as [r|]; simpl; [|done].
  by destruct (field_error data f r).
Qed.

Lemma INPUT_VALIDATORS_required field r :
  (field, r) ∈ INPUT_VALIDATORS → required r = true.
Proof.
  unfold INPUT_VALIDATORS. rewrite !elem_of_cons, elem_of_nil.
  intros H. repeat destruct H as [H|H]; try done; by inversion H.
Qed.

Lemma field_error_Some data field r msg :
  required r = true →
  field_error data field r = Some msg ↔
  (data !! field = None ∧ msg = error r) ∨
  (∃ v, data !! field = Some v ∧ (v ∉ options r) ∧ msg = invalid_value_message field r).
Proof.
  intros Hreq. unfold field_error, py_in. rewrite Hreq.
  destruct (data !! field) as [v|].
  - case_bool_decide as Hin.
    + split; [done|]. intros [[? _]|(v' & [= <-] & Hn & _)]; done.
    + split.
      * intros [= <-]. right. by exists v.
      * intros [[? _]|(v' & _ & _ & ->)]; done.
  - split.
    + intros [= <-]. by left.
    + intros [[_ ->]|(v & ? & _)]; done.
Qed.

Lemma field_error_None data field r :
  required r = true →
  field_error data field r = None ↔ ∃ v, data !! field = Some v ∧ v ∈ options r.
Proof.
  intros Hreq. unfold field_error, py_in. rewrite Hreq.
  destruct (data !! field) as [v|].
  - case_bool_decide as Hin.
    + split; [by exists v | done].
    + split; [done | intros (v' & [= <-] & ?); done].
  - split; [done | intros (v & ? & _); done].
Qed.

Lemma validate_input_entry data field msg :
  validate_input data !! field = Some msg ↔
  ∃ r, (field, r) ∈ INPUT_VALIDATORS ∧
    ((data !! field = None ∧ msg = error r) ∨
     (∃ v, data !! field = Some v ∧ (v ∉ options r) ∧
           msg = invalid_value_message field r)).
Proof.
  rewrite validate_input_lookup. split.
  - destruct (assoc field INPUT_VALIDATORS) as [r|] eqn:Hr; simpl; [|done].
    apply (assoc_Some _ _ _ INPUT_VALIDATORS_NoDup) in Hr.
    intros He. exists r. split; [done|].
    by apply field_error_Some; [eapply INPUT_VALIDATORS_required|].
  - intros (r & Hr & He).
    pose proof (INPUT_VALIDATORS_required _ _ Hr) as Hreq.
    apply (assoc_Some _ _ _ INPUT_VALIDATORS_NoDup) in Hr. rewrite Hr. simpl.
    by apply field_error_Some.
Qed.

Lemma validate_input_empty data :
  validate_input data = ∅ ↔ valid_request data.
Proof.
  split.
  - intros Hempty field r Hr.
    pose proof (INPUT_VALIDATORS_required _ _ Hr) as Hreq.
    apply field_error_None; [done|].
    pose proof (validate_input_lookup data field) as Hl.
    rewrite Hempty, lookup_empty in Hl.
    apply (assoc_Some _ _ _ INPUT_VALIDATORS_NoDup) in Hr.
    by rewrite Hr in Hl.
  - intros Hvalid. apply map_eq. intros f.
    rewrite validate_input_lookup, lookup_empty.
    destruct (assoc f INPUT_VALIDATORS) as [r|] eqn:Hr; simpl; [|done].
    apply (assoc_Some _ _ _ INPUT_VALIDATORS_NoDup) in Hr.
    apply field_error_None; [by eapply INPUT_VALIDATORS_required|].
    by apply Hvalid.
Qed.

(** *** The validator on any JSON object *)

Lemma py_in_options_accepted v dom :
  py_in_options v dom = true ↔ accepted v dom.
Proof.
  unfold py_in_options, accepted. rewrite existsb_exists.
  split; intros (o & Ho & He); exists o; split; try done;
    by apply list_elem_of_In.
Qed.

Lemma py_eq_option_to_json x o : py_eq_option (to_json x) o = bool_decide (x = o).
Proof.
  destruct x, o; cbn; try (symmetry; by apply bool_decide_eq_false);
    apply bool_decide_ext; split; congruence.
Qed.

Lemma accepted_to_json x dom : accepted (to_json x) dom ↔ x ∈ dom.
Proof.
  unfold accepted. split.
  - intros (o & Ho & He). rewrite py_eq_option_to_json in He.
    by apply bool_decide_eq_true in He as ->.
  - intros Hx. exists x. split; [done|].
    rewrite py_eq_option_to_json. by apply bool_decide_eq_true.
Qed.

Lemma py_in_options_to_json x dom : py_in_options (to_json x) dom = py_in x dom.
Proof.
  unfold py_in. destruct (bool_decide (x ∈ dom)) eqn:Hd.
  - apply bool_decide_eq_true in Hd. by apply py_in_options_accepted, accepted_to_json.
  - apply bool_decide_eq_false in Hd. apply not_true_is_false.
    intros H. by apply Hd, accepted_to_json, py_in_options_accepted.
Qed.

Lemma validate_field_json_to_json data errors item :
  validate_field_json (to_json <$> data) errors item = validate_field data errors item.
Proof.
  destruct item as [field r]. unfold validate_field_json, validate_field.
  rewrite lookup_fmap. destruct (data !! field) as [v|]; cbn; [|done].
  by rewrite py_in_options_to_json.
Qed.

(** On the requests of the narrower model, integers and strings, the two
    validators are one. *)
Lemma validate_input_json_to_json (data : gmap string value) :
  validate_input_json (to_json <$> data) = validate_input data.
Proof.
  unfold validate_input_json, validate_input.
  generalize (∅ : gmap string string).
  induction INPUT_VALIDATORS as [|item vs IH]; intros errors; [done|].
  cbn [foldl]. by rewrite validate_field_json_to_json, IH.
Qed.
















(** [float_eq_int] on a few floats: integral or not, signed zero, beyond
    2^53, not a number and infinite. *)
Example float_eq_int_examples :
  float_eq_int 6%float 6 = true ∧ float_eq_int 6.5%float 6 = false ∧
  float_eq_int (-0)%float 0 = true ∧ float_eq_int 0.5%float 0 = false ∧
  float_eq_int (-3)%float (-3) = true ∧
  float_eq_int 9007199254740992%float 9007199254740992 = true ∧
  float_eq_int 9007199254740992%float 9007199254740993 = false ∧
  float_eq_int nan 1 = false ∧ float_eq_int infinity 1 = false.
Proof. vm_compute. repeat split. Qed.

(** What Python's [==] lets through and what it does not: the float [6.0]
    is a road type and [30.0] a speed limit; the boolean [false], the
    string ['6'] and [null] are no road types. *)
Example validate_input_json_python_equality :
  validate_input_json
    (<["road_type" := JFloat 6]> (<["speed_limit" := JFloat 30]> boolean_road_type)) = ∅ ∧
  validate_input_json (<["road_type" := JBool false]> boolean_road_type)
    = {[ "road_type" := "Invalid value for road_type. Options are: [1, 2, 3, 6]" ]} ∧
  validate_input_json (<["road_type" := JStr "6"]> boolean_road_type)
    = {[ "road_type" := "Invalid value for road_type. Options are: [1, 2, 3, 6]" ]} ∧
  validate_input_json (<["road_type" := JNull]> boolean_road_type)
    = {[ "road_type" := "Invalid value for road_type. Options are: [1, 2, 3, 6]" ]}.
Proof. repeat split; vm_compute; reflexivity. Qed.



(** ** Valid requests and their typed view *)

Lemma elem_of_VInt (z : Z) (l : list Z) : VInt z ∈ VInt <$> l ↔ z ∈ l.
Proof.
  rewrite list_elem_of_fmap. split; [intros (y & [= ->] & ?); done | by exists z].
Qed.

Lemma elem_of_VStr (s : string) (l : list string) : VStr s ∈ VStr <$> l ↔ s ∈ l.
Proof.
  rewrite list_elem_of_fmap. split; [intros (y & [= ->] & ?); done | by exists s].
Qed.

Lemma in_VInt_inv (v : value) (l : list Z) : v ∈ VInt <$> l → ∃ z, v = VInt z ∧ z ∈ l.
Proof. rewrite list_elem_of_fmap. intros (z & -> & ?). by exists z. Qed.

Lemma in_VStr_inv (v : value) (l : list string) : v ∈ VStr <$> l → ∃ s, v = VStr s ∧ s ∈ l.
Proof. rewrite list_elem_of_fmap. intros (s & -> & ?). by exists s. Qed.

Lemma valid_request_carries (data : gmap string value) :
  valid_request data ↔ ∃ req, carries data req ∧ in_domain req.
Proof.
  split.
  - intros Hv.
    edestruct (Hv "road_type") as (v1 & H1 & Hin1);
      [apply (assoc_Some _ _ _ INPUT_VALIDATORS_NoDup); reflexivity|].
    edestruct (Hv "weather_conditions") as (v2 & H2 & Hin2);
      [apply (assoc_Some _ _ _ INPUT_VALIDATORS_NoDup); reflexivity|].
    edestruct (Hv "speed_limit") as (v3 & H3 & Hin3);
      [apply (assoc_Some _ _ _ INPUT_VALIDATORS_NoDup); reflexivity|].
    edestruct (Hv "time_of_day") as (v4 & H4 & Hin4);
      [apply (assoc_Some _ _ _ INPUT_VALIDATORS_NoDup); reflexivity|].
    edestruct (Hv "junction_detail") as (v5 & H5 & Hin5);
      [apply (assoc_Some _ _ _ INPUT_VALIDATORS_NoDup); reflexivity|].
    cbn [options] in *.
    apply (in_VInt_inv _ [1; 2; 3; 6]%Z) in Hin1 as (rt & -> & ?).
    apply (in_VStr_inv _ ["Fine"; "Rain"; "Snow"; "Fog"]) in Hin2 as (w & -> & ?).
    apply (in_VInt_inv _ [20; 30; 40; 50; 60; 70]%Z) in Hin3 as (sl & -> & ?).
    apply (in_VStr_inv _ ["Morning"; "Afternoon"; "Evening"; "Night"])
      in Hin4 as (t & -> & ?).
    apply (in_VStr_inv _ ["T Junction"; "Crossroads"; "Roundabout"; "Not at junction"])
      in Hin5 as (j & -> & ?).
    exists {| road_type := rt; weather_conditions := w; speed_limit := sl;
              time_of_day := t; junction_detail := j |}.
    by repeat split.
  - intros (req & (H1 & H2 & H3 & H4 & H5) & (D1 & D2 & D3 & D4 & D5)) field r.
    unfold INPUT_VALIDATORS. rewrite !elem_of_cons, elem_of_nil.
    intros H. repeat destruct H as [H|H]; try done; inversion H; subst; cbn [options].
    + eexists. split; [done|]. by apply (elem_of_VInt _ [1; 2; 3; 6]%Z).
    + eexists. split; [done|]. by apply (elem_of_VStr _ ["Fine"; "Rain"; "Snow"; "Fog"]).
    + eexists. split; [done|]. by apply (elem_of_VInt _ [20; 30; 40; 50; 60; 70]%Z).
    + eexists. split; [done|].
      by apply (elem_of_VStr _ ["Morning"; "Afternoon"; "Evening"; "Night"]).
    + eexists. split; [done|].
      by apply (elem_of_VStr _ ["T Junction"; "Crossroads"; "Roundabout"; "Not at junction"]).
Qed.

Lemma to_data_carries (req : RequestInput) : carries (to_data req) req.
Proof. unfold carries, to_data. repeat split; by simplify_map_eq. Qed.

Lemma valid_to_data req : in_domain req → valid_request (to_data req).
Proof.
  intros Hd. apply valid_request_carries. exists req.
  split; [apply to_data_carries | done].
Qed.

Lemma in_domain_scenario : in_domain scenario.
Proof. unfold in_domain, scenario; cbn. repeat split; compute_done. Qed.

Lemma in_domain_quiet_scenario : in_domain quiet_scenario.
Proof. unfold in_domain, quiet_scenario; cbn. repeat split; compute_done. Qed.

(** Python's tests on the raw values against the typed fields. *)
Lemma py_in_VStr (s : string) (l : list string) :
  py_in (VStr s) (VStr <$> l) = bool_decide (s ∈ l).
Proof. unfold py_in. apply bool_decide_ext, elem_of_VStr. Qed.

Lemma py_in_VInt (z : Z) (l : list Z) :
  py_in (VInt z) (VInt <$> l) = bool_decide (z ∈ l).
Proof. unfold py_in. apply bool_decide_ext, elem_of_VInt. Qed.

Lemma py_ne_VStr (s t : string) : py_ne (VStr s) (VStr t) = bool_decide (s ≠ t).
Proof. unfold py_ne. apply bool_decide_ext. split; intros H ?; apply H; congruence. Qed.

Lemma py_eq_VInt (x y : Z) : py_eq (VInt x) (VInt y) = bool_decide (x = y).
Proof. unfold py_eq. apply bool_decide_ext. split; congruence. Qed.

Lemma py_in_VStr2 (s a b : string) :
  py_in (VStr s) [VStr a; VStr b] = bool_decide (s ∈ [a; b]).
Proof. apply (py_in_VStr s [a; b]). Qed.

Lemma py_in_VInt2 (z a b : Z) :
  py_in (VInt z) [VInt a; VInt b] = bool_decide (z ∈ [a; b]).
Proof. apply (py_in_VInt z [a; b]). Qed.

(** Rewrites the reads of the five fields and Python's tests on them. *)
Ltac read_fields H :=
  destruct H as (?Hrt & ?Hw & ?Hsl & ?Ht & ?Hj);
  repeat match goal with
         | Hl : ?d !! ?k = Some _ |- context [?d !! ?k] => rewrite Hl
         end;
  cbn [mbind option_bind py_gt_int py_le_int py_str];
  rewrite ?py_in_VStr2, ?py_in_VInt2, ?py_ne_VStr, ?py_eq_VInt.

(** ** Risk factors *)

Lemma calculate_risk_factors_analyze data req :
  carries data req → calculate_risk_factors data = Some (analyze req).
Proof.
  intros Hc. unfold calculate_risk_factors, analyze, risk_factor_rules, fired.
  read_fields Hc. cbn [flat_map fst snd road_type_desc_get].
  f_equal.
  destruct (bool_decide (time_of_day req ∈ ["Night"; "Evening"]));
  destruct (bool_decide (weather_conditions req ≠ "Fine"));
  destruct (40 <? speed_limit req)%Z;
  destruct (bool_decide (junction_detail req ≠ "Not at junction"));
  (case_bool_decide as Hroad;
   [ apply elem_of_cons in Hroad as [->|Hroad];
     [| apply elem_of_cons in Hroad as [->|Hroad];
        [| by apply elem_of_nil in Hroad]]; reflexivity
   | by destruct (assoc (road_type req) road_type_desc) ]).
Qed.

Lemma road_desc_not_in_analyze req z desc :
  road_type req ∈ [1; 2]%Z → (z, desc) ∈ road_type_desc → desc ∉ analyze req.
Proof.
  intros Hroad Hdesc. unfold analyze, risk_factor_rules, fired.
  cbn [flat_map fst snd].
  rewrite (bool_decide_eq_false_2 (road_type req ∈ [6; 3]%Z)); last first.
  { intros H6. rewrite !elem_of_cons, elem_of_nil in Hroad, H6. lia. }
  unfold road_type_desc in Hdesc.
  rewrite !elem_of_cons, elem_of_nil in Hdesc.
  destruct (bool_decide (time_of_day req ∈ ["Night"; "Evening"]));
  destruct (bool_decide (weather_conditions req ≠ "Fine"));
  destruct (40 <? speed_limit req)%Z;
  destruct (bool_decide (junction_detail req ≠ "Not at junction"));
  cbn [app]; rewrite ?not_elem_of_cons; repeat split;
    try apply not_elem_of_nil;
    repeat destruct Hdesc as [Hdesc|Hdesc]; try done;
    inversion Hdesc; subst; discriminate.
Qed.

(** C7: the risk factors of a valid request are the entries of the five
    rules visibility, weather, high-speed zone, junction complexity and
    road type, each rule judged on its own and in this order; the road-type
    rule fires for the road types 6 and 3 only, and for the road types 1
    and 2 no description of a road type is among the factors. *)
Theorem calculate_risk_factors_spec (data : gmap string value) (req : RequestInput) :
  valid_request data → carries data req →
  calculate_risk_factors data = Some (analyze req) ∧
  (road_type req ∈ [1; 2]%Z →
   ∀ z desc, (z, desc) ∈ road_type_desc → desc ∉ analyze req).
Proof.
  intros _ Hc. split.
  - by apply calculate_risk_factors_analyze.
  - intros Hroad z desc. by apply road_desc_not_in_analyze.
Qed.

Lemma calculate_risk_factors_spec_witness :
  calculate_risk_factors (to_data scenario) =
    Some [ "Limited visibility during night/evening hours";
           "Adverse weather conditions (Rain)"; "High speed zone";
           "Complex junction type (Crossroads)"; "Urban area with high traffic" ] ∧
  (road_type scenario ∈ [1; 2]%Z →
   ∀ z desc, (z, desc) ∈ road_type_desc → desc ∉ analyze scenario).
Proof.
  apply (calculate_risk_factors_spec (to_data scenario) scenario).
  - apply valid_to_data, in_domain_scenario.
  - apply to_data_carries.
Defined.

(** ** Recommendations *)

Lemma length_pos_nonempty {A} (l : list A) :
  (0 <? length l)%nat = bool_decide (l ≠ []).
Proof. by destruct l. Qed.

Lemma generate_recommendations_recommend data req level risk_factors :
  carries data req →
  generate_recommendations data level risk_factors =
  Some (recommend req level risk_factors).
Proof.
  intros Hc. unfold generate_recommendations, recommend, recommendation_rules.
  unfold high_risk_rules, not_high_risk_rules, fired.
  rewrite length_pos_nonempty.
  case_bool_decide as Hlevel.
  - rewrite decide_True by done. read_fields Hc. cbn [flat_map fst snd].
    destruct (40 <? speed_limit req)%Z;
    destruct (bool_decide (junction_detail req ≠ "Not at junction"));
    destruct (bool_decide (time_of_day req ∈ ["Night"; "Evening"]));
    destruct (bool_decide (weather_conditions req ≠ "Fine"));
    destruct (bool_decide (risk_factors ≠ [])); reflexivity.
  - rewrite decide_False by done. read_fields Hc. cbn [flat_map fst snd].
    destruct risk_factors as [|rf rfs];
    destruct (bool_decide (junction_detail req ≠ "Not at junction"));
    destruct (bool_decide (weather_conditions req ≠ "Fine"));
    destruct (bool_decide (time_of_day req ∈ ["Night"; "Evening"]));
    destruct (bool_decide (road_type req = 1%Z));
    destruct (speed_limit req <=? 30)%Z; reflexivity.
Qed.

(** C8: for a valid request, any risk level and any list of risk factors,
    [generate_recommendations] returns a list that is not empty: the
    entries of all the rules of the level's rule set whose condition holds,
    in the order of the rule set, or the single fallback message when no
    rule fires. *)
Theorem generate_recommendations_spec (data : gmap string value) (req : RequestInput)
    (level : string) (risk_factors : list string) :
  valid_request data → carries data req →
  ∃ recs,
    generate_recommendations data level risk_factors = Some recs ∧
    recs ≠ [] ∧
    (fired (recommendation_rules req level risk_factors) = [] → recs = fallback) ∧
    (fired (recommendation_rules req level risk_factors) ≠ [] →
     recs = fired (recommendation_rules req level risk_factors)).
Proof.
  intros _ Hc. eexists. split; [by apply generate_recommendations_recommend|].
  unfold recommend.
  destruct (fired (recommendation_rules req level risk_factors)); done.
Qed.

Lemma generate_recommendations_spec_witness :
  ∃ recs,
    generate_recommendations (to_data quiet_scenario) "Not High Risk" [] = Some recs ∧
    recs ≠ [] ∧
    (fired (recommendation_rules quiet_scenario "Not High Risk" []) = [] →
     recs = fallback) ∧
    (fired (recommendation_rules quiet_scenario "Not High Risk" []) ≠ [] →
     recs = fired (recommendation_rules quiet_scenario "Not High Risk" [])).
Proof.
  apply (generate_recommendations_spec (to_data quiet_scenario) quiet_scenario).
  - apply valid_to_data, in_domain_quiet_scenario.
  - apply to_data_carries.
Defined.

(** ** The feature encoder *)

Lemma init_fold_lookup (fn : list string) (df : gmap string cell) (k : string) :
  foldl (λ df feature, <[feature := CInt 0]> df) df fn !! k =
  if decide (k ∈ fn) then Some (CInt 0) else df !! k.
Proof.
  revert df. induction fn as [|f fn IH]; intros df; cbn [foldl].
  - rewrite decide_False; [done | apply not_elem_of_nil].
  - rewrite IH. destruct (decide (k ∈ fn)) as [Hin|Hnin].
    + rewrite decide_True; [done | by right].
    + destruct (decide (k = f)) as [->|Hne].
      * rewrite lookup_insert_eq, decide_True; [done | by left].
      * rewrite lookup_insert_ne by done.
        rewrite decide_False; [done|]. by intros [?|?]%elem_of_cons.
Qed.

Lemma init_frame_lookup fn data k :
  init_frame fn data !! k =
  if decide (k ∈ fn) then Some (CInt 0) else of_value <$> data !! k.
Proof. unfold init_frame. by rewrite init_fold_lookup, lookup_fmap. Qed.

(** Column names that differ: decided on the characters, the interpolated
    suffix of a one-hot column left symbolic. *)
Ltac key_ne := let H := fresh in intros H; cbn in H; discriminate H.

Ltac frame_lookup :=
  repeat first [ rewrite lookup_insert_eq
               | rewrite lookup_insert_ne by key_ne ].

Lemma preprocess_input_frame fn data r0 r w t j s0 s :
  init_frame fn data !! "road_type" = Some r0 →
  cell_str r0 = Some r →
  init_frame fn data !! "weather_conditions" = Some w →
  init_frame fn data !! "time_of_day" = Some t →
  init_frame fn data !! "junction_detail" = Some j →
  init_frame fn data !! "speed_limit" = Some s0 →
  astype_float s0 = Some s →
  preprocess_input fn data =
  mapM (λ feature,
          c ← encoded_frame (init_frame fn data) r w t j s !! feature;
          Some (feature, c)) fn.
Proof.
  intros Hr0 Hr Hw Ht Hj Hs0 Hs. unfold preprocess_input.
  fold (init_frame fn data). set (df := init_frame fn data) in *.
  rewrite Hr0. cbn [mbind option_bind]. rewrite Hr. cbn [mbind option_bind].
  frame_lookup. rewrite Hw. cbn [mbind option_bind].
  frame_lookup. rewrite Ht. cbn [mbind option_bind].
  frame_lookup. rewrite Hj. cbn [mbind option_bind].
  frame_lookup. rewrite Hs0. cbn [mbind option_bind]. rewrite Hs.
  cbn [mbind option_bind].
  frame_lookup. rewrite Hw. cbn [mbind option_bind].
  frame_lookup. rewrite Hw. cbn [mbind option_bind].
  frame_lookup. cbn [mbind option_bind bool_cell cell_add].
  frame_lookup. rewrite Ht. cbn [mbind option_bind].
  frame_lookup. rewrite Ht. cbn [mbind option_bind].
  frame_lookup. cbn [mbind option_bind cell_gt_int].
  frame_lookup. cbn [mbind option_bind bool_cell cell_mul].
  frame_lookup. cbn [mbind option_bind bool_cell cell_mul].
  reflexivity.
Qed.

Lemma select_columns (m : gmap string cell) (fn : list string) :
  (∀ f, f ∈ fn → is_Some (m !! f)) →
  ∃ out, mapM (λ f, c ← m !! f; Some (f, c)) fn = Some out ∧
         out.*1 = fn ∧
         ∀ k, feature out k = if decide (k ∈ fn) then m !! k else None.
Proof.
  induction fn as [|f fn IH]; intros Hall.
  - exists []. split; [done|]. split; [done|].
    intros k. rewrite decide_False; [done|apply not_elem_of_nil].
  - destruct IH as (out & Hout & Hcols & Hfeat).
    { intros g Hg. apply Hall. by right. }
    destruct (Hall f) as [c Hc]; [by left|].
    exists ((f, c) :: out). split; [|split].
    + cbn [mapM]. rewrite Hc. cbn [mbind option_bind]. rewrite Hout. done.
    + by rewrite fmap_cons, Hcols.
    + intros k. unfold feature in *. cbn [assoc].
      destruct (decide (k = f)) as [->|Hne].
      * rewrite decide_True; [done | by left].
      * rewrite Hfeat. destruct (decide (k ∈ fn)) as [Hin|Hnin].
        -- rewrite decide_True; [done | by right].
        -- rewrite decide_False; [done|]. by intros [?|?]%elem_of_cons.
Qed.

Lemma encoded_frame_is_Some df r w t j s k :
  is_Some (df !! k) → is_Some (encoded_frame df r w t j s !! k).
Proof.
  intros H. unfold encoded_frame.
  by repeat (apply lookup_insert_is_Some'; right).
Qed.

Lemma init_frame_read_back fn data field v :
  data !! field = Some v →
  init_frame fn data !! field = Some (read_back fn field (of_value v)).
Proof.
  intros Hv. rewrite init_frame_lookup. unfold read_back.
  destruct (decide (field ∈ fn)); [done|]. by rewrite Hv.
Qed.

Lemma read_back_CInt fn field z :
  read_back fn field (CInt z) = CInt (read_back_Z fn field z).
Proof. unfold read_back, read_back_Z. by destruct (decide (field ∈ fn)). Qed.

(** [preprocess_input] succeeds on every request that carries the five
    fields, whatever the schema; the vector has the schema's names in the
    schema's order, and each feature holds the cell of its column. *)
Lemma preprocess_input_request fn data req :
  carries data req →
  ∃ out, preprocess_input fn data = Some out ∧
         out.*1 = fn ∧
         ∀ k, feature out k =
              if decide (k ∈ fn) then request_frame fn data req !! k else None.
Proof.
  intros (Hrt & Hw & Hsl & Ht & Hj).
  apply (init_frame_read_back fn) in Hrt, Hw, Hsl, Ht, Hj.
  cbn [of_value] in *. rewrite read_back_CInt in Hrt, Hsl.
  rewrite (preprocess_input_frame fn data _ _ _ _ _ _ _
             Hrt eq_refl Hw Ht Hj Hsl eq_refl).
  apply select_columns. intros f Hf.
  apply encoded_frame_is_Some. rewrite init_frame_lookup.
  by rewrite decide_True.
Qed.

Lemma request_frame_speed_limit fn data req :
  request_frame fn data req !! "speed_limit" =
  Some (CFloat (Z2float (read_back_Z fn "speed_limit" (speed_limit req)) / 70)%float).
Proof. unfold request_frame, encoded_frame. by frame_lookup. Qed.

Lemma request_frame_high_speed fn data req :
  request_frame fn data req !! "high_speed" =
  Some (bool_cell
          (PrimFloat.ltb (Z2float 40)
             (Z2float (read_back_Z fn "speed_limit" (speed_limit req)) / 70)%float)).
Proof. unfold request_frame, encoded_frame. by frame_lookup. Qed.

Lemma request_frame_night_speed_risk fn data req :
  request_frame fn data req !! "night_speed_risk" =
  Some (CInt
    ((if cell_in (read_back fn "time_of_day" (CStr (time_of_day req))) ["Night"; "Evening"]
      then 1 else 0) *
     (if PrimFloat.ltb (Z2float 40)
           (Z2float (read_back_Z fn "speed_limit" (speed_limit req)) / 70)%float
      then 1 else 0))).
Proof. unfold request_frame, encoded_frame. by frame_lookup. Qed.

Lemma request_frame_weather_speed_risk fn data req :
  request_frame fn data req !! "weather_speed_risk" =
  Some (CInt
    ((if cell_ne (read_back fn "weather_conditions" (CStr (weather_conditions req))) "Fine"
      then 1 else 0) *
     (if PrimFloat.ltb (Z2float 40)
           (Z2float (read_back_Z fn "speed_limit" (speed_limit req)) / 70)%float
      then 1 else 0))).
Proof. unfold request_frame, encoded_frame. by frame_lookup. Qed.

(** The normalised speed of a request of the domain is never above 40:
    it is at most 1. *)
Lemma normalised_speed_not_high fn req :
  in_domain req →
  PrimFloat.ltb (Z2float 40)
    (Z2float (read_back_Z fn "speed_limit" (speed_limit req)) / 70)%float = false.
Proof.
  intros (_ & _ & Hsl & _). unfold read_back_Z.
  destruct (decide ("speed_limit" ∈ fn)); [by vm_compute|].
  rewrite !elem_of_cons, elem_of_nil in Hsl.
  repeat destruct Hsl as [Hsl|Hsl]; try done; rewrite Hsl; by vm_compute.
Qed.

(** For every request of the domain and every schema, the features
    [high_speed], [night_speed_risk] and [weather_speed_risk] are 0,
    whatever the speed limit of the request. *)
Lemma high_speed_features_zero fn data req :
  carries data req → in_domain req →
  ∃ out, preprocess_input fn data = Some out ∧
    ∀ k, k ∈ ["high_speed"; "night_speed_risk"; "weather_speed_risk"] →
         k ∈ fn → feature out k = Some (CInt 0).
Proof.
  intros Hc Hd. destruct (preprocess_input_request fn data req Hc) as (out & Hout & _ & Hf).
  exists out. split; [done|]. intros k Hk Hin.
  rewrite Hf, decide_True by done.
  pose proof (normalised_speed_not_high fn req Hd) as Hlow.
  rewrite !elem_of_cons, elem_of_nil in Hk.
  destruct Hk as [->|[->|[->|[]]]].
  - by rewrite request_frame_high_speed, Hlow.
  - rewrite request_frame_night_speed_risk, Hlow. by rewrite Z.mul_0_r.
  - rewrite request_frame_weather_speed_risk, Hlow. by rewrite Z.mul_0_r.
Qed.

(** When [speed_limit] is a schema feature, the zero initialisation
    overwrites the request's speed limit before it is normalised: the
    feature is [0 / 70]. *)
Lemma speed_limit_feature_zeroed fn data req :
  carries data req → "speed_limit" ∈ fn →
  ∃ out, preprocess_input fn data = Some out ∧
         feature out "speed_limit" = Some (CFloat 0).
Proof.
  intros Hc Hin. destruct (preprocess_input_request fn data req Hc) as (out & Hout & _ & Hf).
  exists out. split; [done|].
  rewrite Hf, decide_True by done. rewrite request_frame_speed_limit.
  unfold read_back_Z. rewrite decide_True by done. by vm_compute.
Qed.

(** When [speed_limit] is not a schema feature, the vector has no such
    feature. *)
Lemma speed_limit_feature_absent fn data req :
  carries data req → "speed_limit" ∉ fn →
  ∃ out, preprocess_input fn data = Some out ∧ feature out "speed_limit" = None.
Proof.
  intros Hc Hin. destruct (preprocess_input_request fn data req Hc) as (out & Hout & _ & Hf).
  exists out. split; [done|]. by rewrite Hf, decide_False.
Qed.

Ltac suffix_ne :=
  let H := fresh in intros H; cbn in H; simplify_eq.

Lemma encoded_frame_road_type df r w t j s r' :
  encoded_frame df r w t j s !! ("road_type_" +:+ r') =
  if decide (r' = r) then Some (CInt 1) else df !! ("road_type_" +:+ r').
Proof.
  unfold encoded_frame. frame_lookup.
  destruct (decide (r' = r)) as [->|Hne]; [by rewrite lookup_insert_eq|].
  by rewrite lookup_insert_ne by suffix_ne.
Qed.

Lemma encoded_frame_weather_conditions df r w t j s c :
  encoded_frame df r w t j s !! ("weather_conditions_" +:+ c) =
  if decide (c = pretty (get_default weather_map w 1)) then Some (CInt 1)
  else df !! ("weather_conditions_" +:+ c).
Proof.
  unfold encoded_frame. frame_lookup.
  destruct (decide (c = _)) as [->|Hne].
  - by rewrite lookup_insert_eq.
  - rewrite lookup_insert_ne by suffix_ne. by frame_lookup.
Qed.

Lemma encoded_frame_light_conditions df r w t j s c :
  encoded_frame df r w t j s !! ("light_conditions_" +:+ c) =
  if decide (c = pretty (get_default time_to_light t 1)) then Some (CInt 1)
  else df !! ("light_conditions_" +:+ c).
Proof.
  unfold encoded_frame. frame_lookup.
  destruct (decide (c = _)) as [->|Hne].
  - by rewrite lookup_insert_eq.
  - rewrite lookup_insert_ne by suffix_ne. by frame_lookup.
Qed.

Lemma encoded_frame_junction_detail df r w t j s c :
  encoded_frame df r w t j s !! ("junction_detail_" +:+ c) =
  if decide (c = pretty (get_default junction_map j 0)) then Some (CInt 1)
  else df !! ("junction_detail_" +:+ c).
Proof.
  unfold encoded_frame. frame_lookup.
  destruct (decide (c = _)) as [->|Hne].
  - by rewrite lookup_insert_eq.
  - rewrite lookup_insert_ne by suffix_ne. by frame_lookup.
Qed.

Lemma encoded_frame_unwritten df r w t j s k :
  k ∉ written_columns r w t j → encoded_frame df r w t j s !! k = df !! k.
Proof.
  unfold written_columns, encoded_frame. rewrite !not_elem_of_cons.
  intros H. repeat destruct H as [? H].
  by repeat rewrite lookup_insert_ne by congruence.
Qed.

Lemma pretty_Z_eq (x y : Z) : (pretty x : string) = pretty y ↔ x = y.
Proof. split; [apply (inj pretty) | by intros ->]. Qed.

(** For every request that carries the five fields and every schema: the
    vector has the schema's names in the schema's order; a feature the
    encoder does not write is 0; in each one-hot group the feature of
    the group's code is 1 and the features of the other codes are 0.
    The code of the road-type group is the road type of the request when
    [road_type] is not itself a schema feature. *)
Lemma preprocess_input_one_hot fn data req :
  carries data req →
  ∃ out, preprocess_input fn data = Some out ∧
    out.*1 = fn ∧
    (∀ k, k ∈ fn →
       k ∉ written_columns
             (pretty (read_back_Z fn "road_type" (road_type req)))
             (read_back fn "weather_conditions" (CStr (weather_conditions req)))
             (read_back fn "time_of_day" (CStr (time_of_day req)))
             (read_back fn "junction_detail" (CStr (junction_detail req))) →
       feature out k = Some (CInt 0)) ∧
    (∀ z : Z, "road_type_" +:+ pretty z ∈ fn →
       feature out ("road_type_" +:+ pretty z) =
       Some (CInt (if decide (z = read_back_Z fn "road_type" (road_type req))
                   then 1 else 0))) ∧
    (∀ z : Z, "weather_conditions_" +:+ pretty z ∈ fn →
       feature out ("weather_conditions_" +:+ pretty z) =
       Some (CInt (if decide (z = weather_code fn req) then 1 else 0))) ∧
    (∀ z : Z, "light_conditions_" +:+ pretty z ∈ fn →
       feature out ("light_conditions_" +:+ pretty z) =
       Some (CInt (if decide (z = light_code fn req) then 1 else 0))) ∧
    (∀ z : Z, "junction_detail_" +:+ pretty z ∈ fn →
       feature out ("junction_detail_" +:+ pretty z) =
       Some (CInt (if decide (z = junction_code fn req) then 1 else 0))).
Proof.
  intros Hc. destruct (preprocess_input_request fn data req Hc) as (out & Hout & Hcols & Hf).
  exists out. split; [done|]. split; [done|].
  assert (Hzero : ∀ k, k ∈ fn → init_frame fn data !! k = Some (CInt 0)).
  { intros k Hk. by rewrite init_frame_lookup, decide_True. }
  repeat split.
  - intros k Hk Hw. rewrite Hf, decide_True by done.
    unfold request_frame. rewrite encoded_frame_unwritten by done. by apply Hzero.
  - intros z Hk. rewrite Hf, decide_True by done.
    unfold request_frame. rewrite encoded_frame_road_type, (Hzero _ Hk).
    destruct (decide (z = _)) as [->|Hne]; [by rewrite decide_True|].
    rewrite decide_False; [done|]. by rewrite pretty_Z_eq.
  - intros z Hk. rewrite Hf, decide_True by done.
    unfold request_frame. rewrite encoded_frame_weather_conditions, (Hzero _ Hk).
    fold (weather_code fn req).
    destruct (decide (z = _)) as [->|Hne]; [by rewrite decide_True|].
    rewrite decide_False; [done|]. by rewrite pretty_Z_eq.
  - intros z Hk. rewrite Hf, decide_True by done.
    unfold request_frame. rewrite encoded_frame_light_conditions, (Hzero _ Hk).
    fold (light_code fn req).
    destruct (decide (z = _)) as [->|Hne]; [by rewrite decide_True|].
    rewrite decide_False; [done|]. by rewrite pretty_Z_eq.
  - intros z Hk. rewrite Hf, decide_True by done.
    unfold request_frame. rewrite encoded_frame_junction_detail, (Hzero _ Hk).
    fold (junction_code fn req).
    destruct (decide (z = _)) as [->|Hne]; [by rewrite decide_True|].
    rewrite decide_False; [done|]. by rewrite pretty_Z_eq.
Qed.

(** *** The speed limit in the scenario of the specification *)

(** C1, which the code does not meet: [preprocess_input] computes
    [high_speed] from the column [speed_limit] after it has replaced that
    column by the normalised speed, a number that is at most 1 and so
    never above 40.  For the scenario request, whose raw speed limit 50 is
    above 40 and which is at night and in the rain, the vector has
    [is_night] = 1 and [weather_risk] = 1, yet [high_speed] = 0,
    [night_speed_risk] = 0 and [weather_speed_risk] = 0. *)
Theorem high_speed_reads_normalised_speed :
  (40 <? speed_limit scenario)%Z = true ∧
  ∃ out, preprocess_input derived_schema (to_data scenario) = Some out ∧
    feature out "is_night" = Some (CInt 1) ∧
    feature out "weather_risk" = Some (CInt 1) ∧
    feature out "high_speed" = Some (CInt 0) ∧
    feature out "night_speed_risk" = Some (CInt 0) ∧
    feature out "weather_speed_risk" = Some (CInt 0).
Proof.
  split; [reflexivity|].
  eexists. split; [vm_compute; reflexivity|].
  repeat split; vm_compute; reflexivity.
Qed.

(** C6, which the code does not meet: with a schema that has the
    continuous feature [speed_limit], the zero initialisation of the schema
    features overwrites the speed limit of the request before it is
    normalised.  For the scenario request (speed limit 50) the vector has
    the schema's names in the schema's order, but its [speed_limit] feature
    is 0, which lies below 20/70. *)
Theorem speed_limit_feature_zeroed_by_initialisation :
  ∃ out, preprocess_input speed_schema (to_data scenario) = Some out ∧
    out.*1 = speed_schema ∧
    feature out "speed_limit" = Some (CFloat 0) ∧
    PrimFloat.leb (20 / 70)%float 0%float = false.
Proof.
  eexists. split; [vm_compute; reflexivity|].
  repeat split; vm_compute; reflexivity.
Qed.

(** ** Calibration, blending and classification *)

Section CalibrationFacts.
Local Open Scope R_scope.

Lemma py_clamp x : py_min (py_max x 0) 1 = clamp 0 1 x.
Proof.
  unfold py_min, py_max, clamp, Rmax, Rmin.
  repeat destruct (Rlt_dec _ _); repeat destruct (Rle_dec _ _); lra.
Qed.

Lemma clamp_range x : 0 <= clamp 0 1 x <= 1.
Proof.
  unfold clamp, Rmax, Rmin.
  repeat destruct (Rle_dec _ _); lra.
Qed.

Lemma clamp_le x b : 0 <= b → x <= b → clamp 0 1 x <= b.
Proof.
  unfold clamp, Rmax, Rmin. intros.
  repeat destruct (Rle_dec _ _); lra.
Qed.

Lemma denominator_pos raw : 0 <= raw <= 1 → 0.5 <= raw * 0.5 + (1 - raw).
Proof. lra. Qed.

Lemma bias_corrected_range raw : 0 <= raw <= 1 → 0 <= bias_corrected raw <= 1.
Proof.
  intros Hr. unfold bias_corrected.
  pose proof (denominator_pos raw Hr) as Hd.
  split.
  - apply Rmult_le_pos; [lra|]. left. apply Rinv_0_lt_compat. lra.
  - apply (Rmult_le_reg_r (raw * 0.5 + (1 - raw))); [lra|].
    unfold Rdiv. rewrite Rmult_assoc, Rinv_l by lra. lra.
Qed.

Lemma py_pow_power x y : 0 <= x → py_pow x y = Some (power x y).
Proof.
  intros Hx. unfold py_pow, power.
  destruct (Rlt_dec x 0); [lra|]. by destruct (Req_dec_T x 0).
Qed.

Lemma power_range x y : 0 <= x <= 1 → 0 < y → 0 <= power x y <= 1.
Proof.
  intros [H0 H1] Hy. unfold power. destruct (Req_dec_T x 0); [lra|].
  split.
  - left. apply exp_pos.
  - unfold Rpower. rewrite <- exp_0.
    destruct (Req_dec_T x 1) as [->|Hne].
    + rewrite ln_1, Rmult_0_r. lra.
    + left. apply exp_increasing.
      assert (ln x < 0) by (rewrite <- ln_1; apply ln_increasing; lra).
      nra.
Qed.

Lemma pow5_range x : 0 <= x <= 1 → 0 <= x ^ 5 <= 1.
Proof.
  intros [H0 H1]. split; [by apply pow_le|].
  rewrite <- (pow1 5). by apply pow_incr.
Qed.

Lemma remapped_range raw : 0 <= raw <= 1 → 0 <= remapped raw <= 0.9.
Proof.
  intros Hr. unfold remapped.
  pose proof (bias_corrected_range raw Hr) as Ha.
  destruct (Rlt_dec 0.5 (bias_corrected raw)).
  - pose proof (pow5_range ((bias_corrected raw - 0.5) * 2)) as Hp. lra.
  - pose proof (power_range (bias_corrected raw * 2) 0.33) as Hp. lra.
Qed.

Lemma correction_range raw : 0 <= raw <= 1 → 0 <= correction raw <= 0.025.
Proof.
  intros Hr. unfold correction.
  assert (0 <= Rabs (raw - 0.5) <= 0.5) as Habs.
  { split; [apply Rabs_pos|]. apply Rabs_le. lra. }
  destruct (Rlt_dec _ _); lra.
Qed.

(** On a probability, [adjust_probability] raises no exception and
    computes the calibrated value of the specification. *)
Lemma adjust_probability_calibrated raw :
  0 <= raw <= 1 → adjust_probability raw = Some (calibrated raw).
Proof.
  intros Hr. unfold adjust_probability.
  pose proof (denominator_pos raw Hr) as Hd.
  destruct (Req_dec_T _ 0) as [Hz|_]; [lra|].
  fold (bias_corrected raw).
  pose proof (bias_corrected_range raw Hr) as Ha.
  unfold calibrated, correction, remapped.
  destruct (Rlt_dec 0.5 (bias_corrected raw)); cbn [mbind option_bind].
  - rewrite py_clamp. by destruct (Rlt_dec _ 0.4).
  - rewrite py_pow_power by lra. cbn [mbind option_bind].
    rewrite py_clamp. by destruct (Rlt_dec _ 0.4).
Qed.

Lemma calibrated_le raw : 0 <= raw <= 1 → calibrated raw <= 0.925.
Proof.
  intros Hr. unfold calibrated. apply clamp_le; [lra|].
  pose proof (remapped_range raw Hr). pose proof (correction_range raw Hr). lra.
Qed.

Lemma base_risk_score_triggers data req :
  carries data req →
  ∃ b, base_risk_score data = Some b ∧
       b = 0.1 * INR (count_true (base_risk_triggers req)).
Proof.
  intros Hc. unfold base_risk_score, base_risk_triggers, count_true.
  read_fields Hc.
  destruct (40 <? speed_limit req)%Z;
  destruct (bool_decide (time_of_day req ∈ ["Night"; "Evening"]));
  destruct (bool_decide (weather_conditions req ≠ "Fine"));
  destruct (bool_decide (junction_detail req ≠ "Not at junction"));
  destruct (bool_decide (road_type req ∈ [6; 3]%Z));
  (eexists; split; [reflexivity|]; cbn [List.filter length INR]; lra).
Qed.

Lemma count_true_le (bs : list bool) : (count_true bs ≤ length bs)%nat.
Proof. unfold count_true. apply List.filter_length_le. Qed.

Lemma risk_level_high p : risk_level p = "High Risk" ↔ 0.70 < p.
Proof.
  unfold risk_level, RISK_THRESHOLDS_high.
  destruct (Rlt_dec 0.70 p); split; intros H; done || lra.
Qed.

Lemma risk_level_not_high p : risk_level p = "Not High Risk" ↔ p <= 0.70.
Proof.
  unfold risk_level, RISK_THRESHOLDS_high.
  destruct (Rlt_dec 0.70 p); split; intros H; done || lra.
Qed.

Lemma carries_nonempty data req : carries data req → data ≠ ∅.
Proof. intros (Hrt & _) ->. by rewrite lookup_empty in Hrt. Qed.

(** On a valid request, with a classifier that answers a probability,
    [predict] answers the success payload, built from the calibrated
    probability of the classifier's answer and the base risk score. *)
Lemma predict_valid (predict_proba : list (string * cell) → R)
    (feature_names : list string) data req :
  valid_request data → carries data req →
  (∀ fv, 0 <= predict_proba fv <= 1) →
  ∃ fv base,
    preprocess_input feature_names data = Some fv ∧
    base_risk_score data = Some base ∧
    let raw := predict_proba fv in
    let p := final_probability (calibrated raw) base in
    predict (Some predict_proba) feature_names data =
    Response200 (risk_level p) p raw (analyze req)
      (recommend req (risk_level p) (analyze req)) data.
Proof.
  intros Hv Hc Hm.
  destruct (preprocess_input_request feature_names data req Hc) as (fv & Hfv & _).
  destruct (base_risk_score_triggers data req Hc) as (base & Hbase & _).
  exists fv, base. split; [done|]. split; [done|]. intros raw p.
  unfold predict.
  rewrite bool_decide_eq_false_2 by (by eapply carries_nonempty).
  rewrite bool_decide_eq_false_2
    by (intros Hne; apply Hne; by apply validate_input_empty).
  rewrite Hfv. cbn [mbind option_bind]. rewrite Hbase. cbn [mbind option_bind].
  rewrite (adjust_probability_calibrated _ (Hm fv)). cbn [mbind option_bind].
  rewrite (calculate_risk_factors_analyze data req Hc). cbn [mbind option_bind].
  rewrite (generate_recommendations_recommend data req _ _ Hc).
  reflexivity.
Qed.

End CalibrationFacts.

(** ** The calibrated probability and the risk level *)

Section CalibrationClaims.
Local Open Scope R_scope.

(** C2: on every raw probability of [[0, 1]], [adjust_probability]
    returns the calibrated value of the specification: the bias
    correction, the remap by the fifth power above 0.5 and by the power
    0.33 otherwise, the additive correction of 0.02 or 0.05 times
    [|raw - 0.5|] and the clamp to [[0, 1]].  On every valid request, with
    a classifier that answers probabilities, [predict] answers the success
    payload whose probability is
    [0.7 * adjusted_probability + 0.3 * base_risk_score], and this is the
    number it classifies. *)
Theorem calibration_refines_specification
    (predict_proba : list (string * cell) → R) (feature_names : list string)
    (data : gmap string value) (req : RequestInput) :
  valid_request data → carries data req →
  (∀ fv, 0 <= predict_proba fv <= 1) →
  (∀ raw, 0 <= raw <= 1 → adjust_probability raw = Some (calibrated raw)) ∧
  ∃ fv base level factors recs,
    preprocess_input feature_names data = Some fv ∧
    base_risk_score data = Some base ∧
    level = risk_level (0.7 * calibrated (predict_proba fv) + 0.3 * base) ∧
    predict (Some predict_proba) feature_names data =
    Response200 level (0.7 * calibrated (predict_proba fv) + 0.3 * base)
      (predict_proba fv) factors recs data.
Proof.
  intros Hv Hc Hm. split; [apply adjust_probability_calibrated|].
  destruct (predict_valid predict_proba feature_names data req Hv Hc Hm)
    as (fv & base & Hfv & Hbase & Hp).
  cbn zeta in Hp.
  assert (final_probability (calibrated (predict_proba fv)) base =
          0.7 * calibrated (predict_proba fv) + 0.3 * base) as Hblend
    by (unfold final_probability; lra).
  rewrite Hblend in Hp.
  exists fv, base. eexists _, _, _. repeat split; [done | done | exact Hp].
Qed.

Lemma calibration_refines_specification_witness :
  (∀ raw, 0 <= raw <= 1 → adjust_probability raw = Some (calibrated raw)) ∧
  ∃ fv base level factors recs,
    preprocess_input speed_schema (to_data scenario) = Some fv ∧
    base_risk_score (to_data scenario) = Some base ∧
    level = risk_level (0.7 * calibrated ((λ _, 0.5) fv) + 0.3 * base) ∧
    predict (Some (λ _, 0.5)) speed_schema (to_data scenario) =
    Response200 level (0.7 * calibrated ((λ _, 0.5) fv) + 0.3 * base)
      ((λ _, 0.5) fv) factors recs (to_data scenario).
Proof.
  apply (calibration_refines_specification (λ _, 0.5) speed_schema
           (to_data scenario) scenario).
  - apply valid_to_data, in_domain_scenario.
  - apply to_data_carries.
  - intros _. lra.
Defined.

(** C3: on every valid request the base risk score is 0.1 times the
    number of the five trigger conditions that hold, a multiple of 0.1
    between 0 and 0.5. *)
Theorem base_risk_score_spec (data : gmap string value) (req : RequestInput) :
  valid_request data → carries data req →
  ∃ b, base_risk_score data = Some b ∧
       b = 0.1 * INR (count_true (base_risk_triggers req)) ∧
       (count_true (base_risk_triggers req) ≤ 5)%nat ∧
       0 <= b <= 0.5.
Proof.
  intros _ Hc. destruct (base_risk_score_triggers data req Hc) as (b & Hb & Hcount).
  exists b. split; [done|]. split; [done|].
  pose proof (count_true_le (base_risk_triggers req)) as Hle.
  change (length (base_risk_triggers req)) with 5%nat in Hle.
  split; [done|].
  apply le_INR in Hle. pose proof (pos_INR (count_true (base_risk_triggers req))).
  replace (INR 5) with 5 in Hle by (cbn [INR]; lra). lra.
Qed.

Lemma base_risk_score_spec_witness :
  ∃ b, base_risk_score (to_data scenario) = Some b ∧
       b = 0.1 * INR (count_true (base_risk_triggers scenario)) ∧
       (count_true (base_risk_triggers scenario) ≤ 5)%nat ∧
       0 <= b <= 0.5.
Proof.
  apply base_risk_score_spec.
  - apply valid_to_data, in_domain_scenario.
  - apply to_data_carries.
Defined.

(** C4: on every raw probability of [[0, 1]], the bounds 0 and 1
    included, [adjust_probability] returns a number of [[0, 1]]. *)
Theorem adjust_probability_range (raw : R) :
  0 <= raw <= 1 → ∃ p, adjust_probability raw = Some p ∧ 0 <= p <= 1.
Proof.
  intros Hr. exists (calibrated raw).
  split; [by apply adjust_probability_calibrated | apply clamp_range].
Qed.

Lemma adjust_probability_range_witness :
  (∃ p, adjust_probability 0 = Some p ∧ 0 <= p <= 1) ∧
  (∃ p, adjust_probability 1 = Some p ∧ 0 <= p <= 1).
Proof.
  split; apply adjust_probability_range; lra.
Defined.

(** C5: the threshold is 0.70 and the comparison is strict: the risk
    level is High Risk exactly when the final probability is above the
    threshold, Not High Risk otherwise, and so Not High Risk at 0.70
    itself. *)
Theorem risk_level_threshold :
  RISK_THRESHOLDS_high = 0.70 ∧
  (∀ p, risk_level p = "High Risk" ↔ RISK_THRESHOLDS_high < p) ∧
  (∀ p, risk_level p = "Not High Risk" ↔ p <= RISK_THRESHOLDS_high) ∧
  risk_level 0.70 = "Not High Risk".
Proof.
  split; [reflexivity|]. split; [apply risk_level_high|].
  split; [apply risk_level_not_high|].
  apply risk_level_not_high. lra.
Qed.

(** C10: on every raw probability of [[0, 1]] the remap stage is at most
    0.9, the additive correction at most 0.025 and [adjust_probability] at
    most 0.925, so that the final probability is at most
    [0.6475 + 0.3 * base_risk_score]; a High Risk level requires a base
    risk score of at least 0.2, that is two trigger conditions, and a base
    risk score of 0 gives Not High Risk.  The same holds of the payload of
    [predict] on a valid request, whatever probability the classifier
    answers. *)
Theorem high_risk_needs_two_triggers
    (predict_proba : list (string * cell) → R) (feature_names : list string)
    (data : gmap string value) (req : RequestInput) :
  valid_request data → carries data req →
  (∀ fv, 0 <= predict_proba fv <= 1) →
  (∀ raw, 0 <= raw <= 1 →
     ∃ a base,
       adjust_probability raw = Some a ∧ base_risk_score data = Some base ∧
       remapped raw <= 0.9 ∧ correction raw <= 0.025 ∧ a <= 0.925 ∧
       final_probability a base <= 0.6475 + 0.3 * base ∧
       (risk_level (final_probability a base) = "High Risk" →
        0.2 <= base ∧ (2 ≤ count_true (base_risk_triggers req))%nat) ∧
       (base = 0 → risk_level (final_probability a base) = "Not High Risk")) ∧
  ∃ level p raw factors recs,
    predict (Some predict_proba) feature_names data =
    Response200 level p raw factors recs data ∧
    (level = "High Risk" → (2 ≤ count_true (base_risk_triggers req))%nat) ∧
    (count_true (base_risk_triggers req) = 0%nat → level = "Not High Risk").
Proof.
  intros Hv Hc Hm.
  destruct (base_risk_score_triggers data req Hc) as (base & Hbase & Hcount).
  assert (Hstage : ∀ raw, 0 <= raw <= 1 →
    final_probability (calibrated raw) base <= 0.6475 + 0.3 * base ∧
    (risk_level (final_probability (calibrated raw) base) = "High Risk" →
     0.2 <= base ∧ (2 ≤ count_true (base_risk_triggers req))%nat) ∧
    (base = 0 →
     risk_level (final_probability (calibrated raw) base) = "Not High Risk")).
  { intros raw Hr. pose proof (calibrated_le raw Hr) as Ha.
    assert (final_probability (calibrated raw) base <= 0.6475 + 0.3 * base) as Hf
      by (unfold final_probability; lra).
    split; [done|]. split.
    - intros Hhigh%risk_level_high.
      destruct (count_true (base_risk_triggers req)) as [|[|n]].
      + cbn [INR] in Hcount. lra.
      + cbn [INR] in Hcount. lra.
      + split; [|lia]. pose proof (pos_INR n).
        rewrite !S_INR in Hcount. lra.
    - intros H0. apply risk_level_not_high. lra. }
  split.
  - intros raw Hr. exists (calibrated raw), base.
    split; [by apply adjust_probability_calibrated|]. split; [done|].
    split; [apply remapped_range; done|]. split; [apply correction_range; done|].
    split; [by apply calibrated_le|]. by apply Hstage.
  - destruct (predict_valid predict_proba feature_names data req Hv Hc Hm)
      as (fv & base' & Hfv & Hbase' & Hp).
    cbn zeta in Hp. assert (base' = base) as -> by congruence.
    eexists _, _, _, _, _. split; [exact Hp|].
    destruct (Hstage (predict_proba fv) (Hm fv)) as (_ & Hhigh & Hlow).
    split.
    + intros H. by apply Hhigh.
    + intros H0. apply Hlow. rewrite Hcount, H0. cbn [INR]. lra.
Qed.

Lemma high_risk_needs_two_triggers_witness :
  (∀ raw, 0 <= raw <= 1 →
     ∃ a base,
       adjust_probability raw = Some a ∧
       base_risk_score (to_data quiet_scenario) = Some base ∧
       remapped raw <= 0.9 ∧ correction raw <= 0.025 ∧ a <= 0.925 ∧
       final_probability a base <= 0.6475 + 0.3 * base ∧
       (risk_level (final_probability a base) = "High Risk" →
        0.2 <= base ∧ (2 ≤ count_true (base_risk_triggers quiet_scenario))%nat) ∧
       (base = 0 → risk_level (final_probability a base) = "Not High Risk")) ∧
  ∃ level p raw factors recs,
    predict (Some (λ _, 1)) speed_schema (to_data quiet_scenario) =
    Response200 level p raw factors recs (to_data quiet_scenario) ∧
    (level = "High Risk" → (2 ≤ count_true (base_risk_triggers quiet_scenario))%nat) ∧
    (count_true (base_risk_triggers quiet_scenario) = 0%nat → level = "Not High Risk").
Proof.
  apply (high_risk_needs_two_triggers (λ _, 1) speed_schema
           (to_data quiet_scenario) quiet_scenario).
  - apply valid_to_data, in_domain_quiet_scenario.
  - apply to_data_carries.
  - intros _. lra.
Defined.

End CalibrationClaims.

(** ** The scenarios of the specification *)

(** A request without [road_type] and with a speed limit outside the
    domain gets both entries at once. *)
Example validate_input_collects_every_error :
  let data := delete "road_type" (<["speed_limit" := VInt 55]> (to_data scenario)) in
  validate_input data !! "road_type" =
    Some "Please select a valid road type (1: Residential, 2: Suburban, 3: Rural, 6: Urban)" ∧
  validate_input data !! "speed_limit" =
    Some "Invalid value for speed_limit. Options are: [20, 30, 40, 50, 60, 70]" ∧
  size (validate_input data) = 2.
Proof. repeat split; vm_compute; reflexivity. Qed.

Example recommendations_quiet_scenario :
  generate_recommendations (to_data quiet_scenario) "Not High Risk" [] =
  Some [ "Continue regular maintenance and monitoring";
         "Maintain residential area safety features";
         "Current speed restrictions are appropriate" ].
Proof. vm_compute. reflexivity. Qed.

(** The fallback message: a High Risk level on a request that triggers
    nothing, with no risk factor. *)
Example recommendations_fallback :
  generate_recommendations (to_data quiet_scenario) "High Risk" [] = Some fallback.
Proof. vm_compute. reflexivity. Qed.

Section RealExamples.
Local Open Scope R_scope.

Lemma bias_corrected_0 : bias_corrected 0 = 0.
Proof. unfold bias_corrected. field. Qed.

Lemma bias_corrected_1 : bias_corrected 1 = 1.
Proof. unfold bias_corrected. field. lra. Qed.

(** The calibrated values at the two ends of the interval. *)
Example adjust_probability_0 : adjust_probability 0 = Some 0.01.
Proof.
  rewrite adjust_probability_calibrated by lra. f_equal.
  unfold calibrated, correction, remapped. rewrite bias_corrected_0.
  unfold power, clamp, Rmax, Rmin, Rabs.
  repeat first [ destruct (Rlt_dec _ _) | destruct (Req_dec_T _ _)
               | destruct (Rle_dec _ _) | destruct (Rcase_abs _) ]; lra.
Qed.

Example adjust_probability_1 : adjust_probability 1 = Some 0.925.
Proof.
  rewrite adjust_probability_calibrated by lra. f_equal.
  unfold calibrated, correction, remapped. rewrite bias_corrected_1.
  unfold clamp, Rmax, Rmin, Rabs.
  repeat first [ destruct (Rlt_dec _ _)
               | destruct (Rle_dec _ _) | destruct (Rcase_abs _) ]; lra.
Qed.

Example base_risk_score_scenario : base_risk_score (to_data scenario) = Some 0.5.
Proof.
  destruct (base_risk_score_triggers (to_data scenario) scenario (to_data_carries _))
    as (b & -> & ->).
  f_equal. vm_compute count_true. cbn [INR]. lra.
Qed.

Example base_risk_score_quiet_scenario :
  base_risk_score (to_data quiet_scenario) = Some 0.
Proof.
  destruct (base_risk_score_triggers (to_data quiet_scenario) quiet_scenario
              (to_data_carries _)) as (b & -> & ->).
  f_equal. vm_compute count_true. cbn [INR]. lra.
Qed.
End RealExamples.

(** * Further properties *)

(** ** More on the validator *)

Lemma assoc_is_field f r : assoc f INPUT_VALIDATORS = Some r → f ∈ INPUT_VALIDATORS.*1.
Proof.
  intros H. destruct (decide (f ∈ INPUT_VALIDATORS.*1)) as [|Hn]; [done|].
  apply assoc_None in Hn. congruence.
Qed.

(** X1: a key that is not one of the five fields has no say in the
    validation: adding, changing or removing it leaves the errors as they
    are. *)
Theorem validate_input_ignores_other_keys (data : gmap string value)
    (k : string) (v : value) :
  k ∉ INPUT_VALIDATORS.*1 →
  validate_input (<[k := v]> data) = validate_input data ∧
  validate_input (delete k data) = validate_input data.
Proof.
  intros Hk. split; apply map_eq; intros f; rewrite !validate_input_lookup;
    destruct (assoc f INPUT_VALIDATORS) as [r|] eqn:Hr; try done;
    cbn [mbind option_bind]; unfold field_error;
    assert (k ≠ f) by (intros ->; by apply Hk, (assoc_is_field _ r)).
  - by rewrite lookup_insert_ne.
  - by rewrite lookup_delete_ne.
Qed.

Lemma validate_input_ignores_other_keys_witness :
  validate_input (<["note" := VStr "school nearby"]> (to_data scenario)) =
    validate_input (to_data scenario) ∧
  validate_input (delete "note" (to_data scenario)) = validate_input (to_data scenario).
Proof.
  apply validate_input_ignores_other_keys.
  unfold INPUT_VALIDATORS. cbn [fmap list_fmap fst].
  rewrite !not_elem_of_cons. repeat split; try discriminate. apply not_elem_of_nil.
Defined.



(** X3: the errors are keyed by the five fields only, so there are at
    most five; a request with none of the five keys gets exactly the five
    fixed messages. *)
Theorem validate_input_fields (data : gmap string value) :
  (∀ f, is_Some (validate_input data !! f) → f ∈ INPUT_VALIDATORS.*1) ∧
  size (validate_input data) ≤ 5 ∧
  ((∀ f, f ∈ INPUT_VALIDATORS.*1 → data !! f = None) →
   size (validate_input data) = 5 ∧
   ∀ f r, (f, r) ∈ INPUT_VALIDATORS → validate_input data !! f = Some (error r)).
Proof.
  assert (Hdom : ∀ f, is_Some (validate_input data !! f) → f ∈ INPUT_VALIDATORS.*1).
  { intros f [msg Hmsg]. rewrite validate_input_lookup in Hmsg.
    destruct (assoc f INPUT_VALIDATORS) as [r|] eqn:Hr; [|done].
    by apply (assoc_is_field _ r). }
  assert (Hsub : dom (validate_input data) ⊆ list_to_set INPUT_VALIDATORS.*1).
  { intros f Hf. apply elem_of_dom in Hf. apply elem_of_list_to_set. by apply Hdom. }
  split; [done|]. split.
  - rewrite <- size_dom. etransitivity; [apply (subseteq_size _ _ Hsub)|].
    by vm_compute.
  - intros Hnone.
    assert (Hall : ∀ f r, (f, r) ∈ INPUT_VALIDATORS →
              validate_input data !! f = Some (error r)).
    { intros f r Hr. pose proof (INPUT_VALIDATORS_required _ _ Hr) as Hreq.
      rewrite validate_input_lookup.
      assert (f ∈ INPUT_VALIDATORS.*1) as Hf.
      { apply list_elem_of_fmap. by exists (f, r). }
      apply (assoc_Some _ _ _ INPUT_VALIDATORS_NoDup) in Hr. rewrite Hr.
      cbn [mbind option_bind]. unfold field_error. by rewrite (Hnone f Hf), Hreq. }
    split; [|done].
    assert (dom (validate_input data) = list_to_set INPUT_VALIDATORS.*1) as Heq.
    { apply set_eq. intros f. rewrite elem_of_dom, elem_of_list_to_set. split; [apply Hdom|].
      intros Hf. apply list_elem_of_fmap in Hf as ([f' r] & -> & Hr).
      cbn [fst]. rewrite (Hall _ _ Hr). by eexists. }
    rewrite <- size_dom, Heq. by vm_compute.
Qed.


(** ** More on the risk factors *)

(** X4: [calculate_risk_factors] returns exactly when the five keys are
    present and [speed_limit] holds an integer; a missing key raises
    [KeyError] and a string speed limit [TypeError].  The values of the
    fields are not checked otherwise. *)
Theorem calculate_risk_factors_raises (data : gmap string value) :
  is_Some (calculate_risk_factors data) ↔
  is_Some (data !! "time_of_day") ∧ is_Some (data !! "weather_conditions") ∧
  (∃ z, data !! "speed_limit" = Some (VInt z)) ∧
  is_Some (data !! "junction_detail") ∧ is_Some (data !! "road_type").
Proof.
  unfold calculate_risk_factors. split.
  - intros [fs Hfs].
    destruct (data !! "time_of_day") as [t|]; [|done].
    destruct (data !! "weather_conditions") as [w|]; [|done].
    destruct (data !! "speed_limit") as [[z|s]|]; [|done|done].
    destruct (data !! "junction_detail") as [j|]; [|done].
    destruct (data !! "road_type") as [rt|]; [|done].
    repeat split; eauto.
  - intros ([t ->] & [w ->] & [z ->] & [j ->] & [rt ->]).
    cbn [mbind option_bind py_gt_int]. by eexists.
Qed.

Lemma length_fired (rs : list (bool * string)) :
  length (fired rs) = count_true rs.*1.
Proof.
  unfold fired, count_true. induction rs as [|[[] m] rs IH]; cbn in *; by rewrite ?IH.
Qed.

Lemma length_analyze (req : RequestInput) :
  length (analyze req) = count_true (base_risk_triggers req).
Proof.
  unfold analyze. rewrite length_fired. unfold risk_factor_rules, base_risk_triggers.
  cbn [fmap list_fmap fst count_true List.filter].
  destruct (bool_decide (time_of_day req ∈ ["Night"; "Evening"]));
  destruct (bool_decide (weather_conditions req ≠ "Fine"));
  destruct (40 <? speed_limit req)%Z;
  destruct (bool_decide (junction_detail req ≠ "Not at junction"));
  destruct (bool_decide (road_type req ∈ [6; 3]%Z)); reflexivity.
Qed.

Section FactorCount.
Local Open Scope R_scope.

(** X5: the risk factors and the base risk score go by the same five
    conditions: the number of risk factors is the number of triggers that
    hold, the base risk score is 0.1 times the number of risk factors, and
    it is 0 exactly when there is no risk factor. *)
Theorem risk_factors_count_triggers (data : gmap string value) (req : RequestInput) :
  carries data req →
  ∃ factors base,
    calculate_risk_factors data = Some factors ∧
    base_risk_score data = Some base ∧
    length factors = count_true (base_risk_triggers req) ∧
    base = 0.1 * INR (length factors) ∧
    (factors = [] ↔ base = 0).
Proof.
  intros Hc. destruct (base_risk_score_triggers data req Hc) as (base & Hbase & Hcount).
  exists (analyze req), base.
  split; [by apply calculate_risk_factors_analyze|]. split; [done|].
  pose proof (length_analyze req) as Hlen.
  split; [done|]. rewrite Hlen. split; [done|].
  rewrite Hcount, <- Hlen. destruct (analyze req) as [|a l].
  - cbn [length INR]. split; [intros _; lra | done].
  - split; [done|]. intros H0. cbn [length] in H0. rewrite S_INR in H0.
    pose proof (pos_INR (length l)). lra.
Qed.

Lemma risk_factors_count_triggers_witness :
  ∃ factors base,
    calculate_risk_factors (to_data scenario) = Some factors ∧
    base_risk_score (to_data scenario) = Some base ∧
    length factors = count_true (base_risk_triggers scenario) ∧
    base = 0.1 * INR (length factors) ∧
    (factors = [] ↔ base = 0).
Proof.
  apply risk_factors_count_triggers. apply to_data_carries.
Defined.

End FactorCount.

(** ** More on the recommendations *)

(** X6: [generate_recommendations] looks at the risk factors only to see
    whether there are any: two lists that are both empty or both non-empty
    give the same recommendations. *)
Theorem generate_recommendations_emptiness (data : gmap string value)
    (level : string) (factors factors' : list string) :
  (factors = [] ↔ factors' = []) →
  generate_recommendations data level factors =
  generate_recommendations data level factors'.
Proof.
  intros Hiff. unfold generate_recommendations. rewrite !length_pos_nonempty.
  assert (bool_decide (factors ≠ []) = bool_decide (factors' ≠ [])) as ->; [|done].
  apply bool_decide_ext. by rewrite Hiff.
Qed.

Lemma generate_recommendations_emptiness_witness :
  generate_recommendations (to_data scenario) "High Risk" ["High speed zone"] =
  generate_recommendations (to_data scenario) "High Risk"
    ["Limited visibility during night/evening hours"; "High speed zone"].
Proof.
  apply generate_recommendations_emptiness. split; discriminate.
Defined.

Lemma length_fired_le (rs : list (bool * string)) : length (fired rs) ≤ length rs.
Proof.
  rewrite length_fired. etransitivity; [apply count_true_le|]. by rewrite length_fmap.
Qed.

(** X7: for a request that carries the five fields there are between one
    and six recommendations, and at most five for a High Risk level. *)
Theorem generate_recommendations_length (data : gmap string value)
    (req : RequestInput) (level : string) (factors : list string) :
  carries data req →
  ∃ recs,
    generate_recommendations data level factors = Some recs ∧
    1 ≤ length recs ≤ 6 ∧
    (level = "High Risk" → length recs ≤ 5).
Proof.
  intros Hc. exists (recommend req level factors).
  split; [by apply generate_recommendations_recommend|].
  unfold recommend, recommendation_rules.
  destruct (decide (level = "High Risk")) as [Hl|Hl].
  - pose proof (length_fired_le (high_risk_rules req factors)) as Hle.
    change (length (high_risk_rules req factors)) with 5 in Hle.
    destruct (fired (high_risk_rules req factors)) as [|m l];
      cbn [length fallback] in *; lia.
  - unfold not_high_risk_rules, fired. cbn [flat_map fst snd].
    destruct factors as [|a l];
    destruct (bool_decide (junction_detail req ≠ "Not at junction"));
    destruct (bool_decide (weather_conditions req ≠ "Fine"));
    destruct (bool_decide (time_of_day req ∈ ["Night"; "Evening"]));
    destruct (bool_decide (road_type req = 1%Z));
    destruct (speed_limit req <=? 30)%Z;
    (cbn; split; [lia | done]).
Qed.

Lemma generate_recommendations_length_witness :
  ∃ recs,
    generate_recommendations (to_data scenario) "High Risk" [] = Some recs ∧
    1 ≤ length recs ≤ 6 ∧
    ("High Risk" = "High Risk" → length recs ≤ 5).
Proof.
  apply (generate_recommendations_length (to_data scenario) scenario).
  apply to_data_carries.
Defined.

(** ** More on the feature encoder *)

Lemma mapM_ext_in {A B} (f g : A → option B) (l : list A) :
  (∀ x, x ∈ l → f x = g x) → mapM f l = mapM g l.
Proof.
  induction l as [|x l IH]; intros Hfg; [done|].
  cbn [mapM]. rewrite (Hfg x) by (by left).
  rewrite IH; [done|]. intros y Hy. apply Hfg. by right.
Qed.

Lemma insert_lookup_ext (m m' : gmap string cell) (i k : string) (x : cell) :
  m !! k = m' !! k → <[i := x]> m !! k = <[i := x]> m' !! k.
Proof. intros H. rewrite !lookup_insert. by case_decide. Qed.

Lemma encoded_frame_lookup_ext df df' r w t j s k :
  df !! k = df' !! k →
  encoded_frame df r w t j s !! k = encoded_frame df' r w t j s !! k.
Proof.
  intros Hk. unfold encoded_frame. by repeat apply insert_lookup_ext.
Qed.

Lemma init_frame_schema fn data k :
  k ∈ fn → init_frame fn data !! k = Some (CInt 0).
Proof. intros Hk. by rewrite init_frame_lookup, decide_True. Qed.

(** X8: the vector is built from the five fields alone: the other keys
    of the request have no effect, and the vector has the schema's names in
    the schema's order. *)
Theorem preprocess_input_five_fields (fn : list string) (data : gmap string value)
    (req : RequestInput) :
  carries data req →
  preprocess_input fn data = preprocess_input fn (to_data req) ∧
  ∃ out, preprocess_input fn data = Some out ∧ out.*1 = fn.
Proof.
  intros Hc. split.
  - pose proof (to_data_carries req) as Hc'.
    destruct Hc as (Hrt & Hw & Hsl & Ht & Hj).
    destruct Hc' as (Hrt' & Hw' & Hsl' & Ht' & Hj').
    apply (init_frame_read_back fn) in Hrt, Hw, Hsl, Ht, Hj, Hrt', Hw', Hsl', Ht', Hj'.
    cbn [of_value] in *. rewrite read_back_CInt in Hrt, Hsl, Hrt', Hsl'.
    rewrite (preprocess_input_frame fn data _ _ _ _ _ _ _
               Hrt eq_refl Hw Ht Hj Hsl eq_refl).
    rewrite (preprocess_input_frame fn (to_data req) _ _ _ _ _ _ _
               Hrt' eq_refl Hw' Ht' Hj' Hsl' eq_refl).
    apply mapM_ext_in. intros f Hf.
    rewrite (encoded_frame_lookup_ext (init_frame fn data) (init_frame fn (to_data req)));
      [done|]. by rewrite !init_frame_schema.
  - destruct (preprocess_input_request fn data req Hc) as (out & Hout & Hcols & _).
    by exists out.
Qed.

Lemma preprocess_input_five_fields_witness :
  preprocess_input speed_schema (<["note" := VStr "school nearby"]> (to_data scenario)) =
    preprocess_input speed_schema (to_data scenario) ∧
  ∃ out, preprocess_input speed_schema
           (<["note" := VStr "school nearby"]> (to_data scenario)) = Some out ∧
         out.*1 = speed_schema.
Proof.
  apply preprocess_input_five_fields.
  unfold carries. repeat split; by vm_compute.
Defined.

(** X9: when the schema lists the five raw columns, the zero
    initialisation erases the whole request: every request is encoded to
    the same vector. *)
Theorem preprocess_input_erased (fn : list string) (data data' : gmap string value) :
  (∀ k, k ∈ raw_columns → k ∈ fn) → data ≠ ∅ → data' ≠ ∅ →
  preprocess_input fn data = preprocess_input fn data' ∧
  is_Some (preprocess_input fn data).
Proof.
  intros Hraw _ _.
  assert (Hframe : ∀ d, preprocess_input fn d =
    mapM (λ feature,
            c ← encoded_frame (init_frame fn d) (pretty 0%Z) (CInt 0) (CInt 0) (CInt 0)
                  (Z2float 0) !! feature;
            Some (feature, c)) fn).
  { intros d. apply (preprocess_input_frame fn d (CInt 0) _ _ _ _ (CInt 0));
      try reflexivity; apply init_frame_schema, Hraw; unfold raw_columns;
      rewrite !elem_of_cons; tauto. }
  split.
  - rewrite !Hframe. apply mapM_ext_in. intros f Hf.
    rewrite (encoded_frame_lookup_ext (init_frame fn data) (init_frame fn data'));
      [done|]. by rewrite !init_frame_schema.
  - rewrite Hframe.
    destruct (select_columns (encoded_frame (init_frame fn data) (pretty 0%Z)
                (CInt 0) (CInt 0) (CInt 0) (Z2float 0)) fn) as (out & Hout & _).
    + intros f Hf. apply encoded_frame_is_Some. rewrite init_frame_schema by done. by eexists.
    + rewrite Hout. by eexists.
Qed.

Lemma preprocess_input_erased_witness :
  preprocess_input (raw_columns ++ derived_schema) (to_data scenario) =
    preprocess_input (raw_columns ++ derived_schema) (to_data quiet_scenario) ∧
  is_Some (preprocess_input (raw_columns ++ derived_schema) (to_data scenario)).
Proof.
  apply preprocess_input_erased.
  - intros k Hk. apply elem_of_app. by left.
  - apply (carries_nonempty _ scenario), to_data_carries.
  - apply (carries_nonempty _ quiet_scenario), to_data_carries.
Defined.

Lemma init_frame_missing fn data k :
  data !! k = None → k ∉ fn → init_frame fn data !! k = None.
Proof.
  intros Hd Hk. rewrite init_frame_lookup, decide_False by done. by rewrite Hd.
Qed.

(** One read of a column: either it raises and the whole call does, or
    the call goes on with the cell. *)
Ltac read_column :=
  match goal with
  | |- (?o ≫= _) = None =>
      let c := fresh "c" in
      destruct o as [c|]; [cbn [mbind option_bind] | reflexivity]
  end.

(** X10: a raw column that neither the request nor the schema provides
    makes [preprocess_input] raise [KeyError]. *)
Theorem preprocess_input_missing_column (fn : list string)
    (data : gmap string value) (k : string) :
  k ∈ raw_columns → data !! k = None → k ∉ fn →
  preprocess_input fn data = None.
Proof.
  intros Hk Hd Hfn. pose proof (init_frame_missing fn data k Hd Hfn) as Hnone.
  unfold preprocess_input. fold (init_frame fn data).
  set (df := init_frame fn data) in *.
  unfold raw_columns in Hk. rewrite !elem_of_cons, elem_of_nil in Hk.
  destruct Hk as [->|[->|[->|[->|[->|[]]]]]];
    repeat (frame_lookup; first [ rewrite Hnone; reflexivity | read_column ]).
Qed.

Lemma preprocess_input_missing_column_witness :
  preprocess_input derived_schema (delete "junction_detail" (to_data scenario)) = None.
Proof.
  apply (preprocess_input_missing_column _ _ "junction_detail").
  - unfold raw_columns. rewrite !elem_of_cons. tauto.
  - apply lookup_delete_eq.
  - unfold derived_schema. rewrite !not_elem_of_cons.
    repeat split; try discriminate. apply not_elem_of_nil.
Defined.

Lemma raw_column_not_in fn k :
  (∀ c, c ∈ raw_columns → c ∉ fn) → k ∈ raw_columns → ∀ x : cell, read_back fn k x = x.
Proof. intros Hraw Hk x. unfold read_back. by rewrite decide_False by by apply Hraw. Qed.

Lemma raw_column_not_in_Z fn k :
  (∀ c, c ∈ raw_columns → c ∉ fn) → k ∈ raw_columns → ∀ z, read_back_Z fn k z = z.
Proof. intros Hraw Hk z. unfold read_back_Z. by rewrite decide_False by by apply Hraw. Qed.

Lemma in_raw_columns :
  "road_type" ∈ raw_columns ∧ "weather_conditions" ∈ raw_columns ∧
  "time_of_day" ∈ raw_columns ∧ "junction_detail" ∈ raw_columns ∧
  "speed_limit" ∈ raw_columns.
Proof. unfold raw_columns. rewrite !elem_of_cons. tauto. Qed.

(** X11: with a schema that lists none of the raw columns, for a request
    whose road type and speed limit are JSON integers and whose weather,
    time of day and junction are JSON strings, each a member of its
    enumerated set, each one-hot group is lit at the code of the
    request's value, found in the table of the group without its
    default, and nowhere else. *)
Theorem preprocess_input_one_hot_groups (fn : list string) (data : gmap string value)
    (req : RequestInput) :
  carries data req → in_domain req → (∀ c, c ∈ raw_columns → c ∉ fn) →
  ∃ out wc lc jc,
    preprocess_input fn data = Some out ∧
    assoc (weather_conditions req) weather_map = Some wc ∧
    assoc (time_of_day req) time_to_light = Some lc ∧
    assoc (junction_detail req) junction_map = Some jc ∧
    ∀ z : Z,
      ("road_type_" +:+ pretty z ∈ fn →
       feature out ("road_type_" +:+ pretty z) =
       Some (CInt (if decide (z = road_type req) then 1 else 0))) ∧
      ("weather_conditions_" +:+ pretty z ∈ fn →
       feature out ("weather_conditions_" +:+ pretty z) =
       Some (CInt (if decide (z = wc) then 1 else 0))) ∧
      ("light_conditions_" +:+ pretty z ∈ fn →
       feature out ("light_conditions_" +:+ pretty z) =
       Some (CInt (if decide (z = lc) then 1 else 0))) ∧
      ("junction_detail_" +:+ pretty z ∈ fn →
       feature out ("junction_detail_" +:+ pretty z) =
       Some (CInt (if decide (z = jc) then 1 else 0))).
Proof.
  intros Hc (Hd1 & Hd2 & Hd3 & Hd4 & Hd5) Hraw.
  destruct in_raw_columns as (R1 & R2 & R3 & R4 & R5).
  destruct (preprocess_input_one_hot fn data req Hc)
    as (out & Hout & _ & _ & Hroad & Hweather & Hlight & Hjunction).
  unfold weather_code in Hweather. unfold light_code in Hlight.
  unfold junction_code in Hjunction.
  rewrite (raw_column_not_in fn _ Hraw R2) in Hweather.
  rewrite (raw_column_not_in fn _ Hraw R3) in Hlight.
  rewrite (raw_column_not_in fn _ Hraw R4) in Hjunction.
  cbn [get_default] in *.
  assert (∃ wc, assoc (weather_conditions req) weather_map = Some wc) as [wc Hwc].
  { rewrite !elem_of_cons, elem_of_nil in Hd2.
    repeat destruct Hd2 as [Hd2|Hd2]; try done; rewrite Hd2; by eexists. }
  assert (∃ lc, assoc (time_of_day req) time_to_light = Some lc) as [lc Hlc].
  { rewrite !elem_of_cons, elem_of_nil in Hd4.
    repeat destruct Hd4 as [Hd4|Hd4]; try done; rewrite Hd4; by eexists. }
  assert (∃ jc, assoc (junction_detail req) junction_map = Some jc) as [jc Hjc].
  { rewrite !elem_of_cons, elem_of_nil in Hd5.
    repeat destruct Hd5 as [Hd5|Hd5]; try done; rewrite Hd5; by eexists. }
  rewrite Hwc in Hweather. rewrite Hlc in Hlight. rewrite Hjc in Hjunction.
  cbn [default from_option] in *.
  exists out, wc, lc, jc. repeat split; try done.
  - intros Hin. rewrite (Hroad z Hin). by rewrite (raw_column_not_in_Z fn _ Hraw R1).
  - apply Hweather.
  - apply Hlight.
  - apply Hjunction.
Qed.

(** X12: with a schema that lists none of the raw columns, the derived
    features of the vector are the ones of the request. *)
Theorem preprocess_input_derived_features (fn : list string)
    (data : gmap string value) (req : RequestInput) :
  carries data req → (∀ c, c ∈ raw_columns → c ∉ fn) →
  ∃ out, preprocess_input fn data = Some out ∧
    ∀ k c, (k, c) ∈ derived_features req → k ∈ fn → feature out k = Some c.
Proof.
  intros Hc Hraw. destruct in_raw_columns as (R1 & R2 & R3 & R4 & R5).
  destruct (preprocess_input_request fn data req Hc) as (out & Hout & _ & Hf).
  exists out. split; [done|]. intros k c Hk Hin.
  rewrite Hf, decide_True by done. unfold request_frame.
  rewrite (raw_column_not_in fn _ Hraw R2), (raw_column_not_in fn _ Hraw R3).
  unfold derived_features in Hk. cbn zeta in Hk.
  unfold encoded_frame. cbn [cell_ne cell_in].
  repeat (apply elem_of_cons in Hk as [Hk|Hk];
          [inversion Hk; subst; by frame_lookup|]).
  by apply elem_of_nil in Hk.
Qed.

Lemma derived_schema_no_raw_columns : ∀ c, c ∈ raw_columns → c ∉ derived_schema.
Proof. apply Forall_forall. compute_done. Qed.

Lemma preprocess_input_one_hot_groups_witness :
  ∃ out wc lc jc,
    preprocess_input derived_schema (to_data scenario) = Some out ∧
    assoc (weather_conditions scenario) weather_map = Some wc ∧
    assoc (time_of_day scenario) time_to_light = Some lc ∧
    assoc (junction_detail scenario) junction_map = Some jc ∧
    ∀ z : Z,
      ("road_type_" +:+ pretty z ∈ derived_schema →
       feature out ("road_type_" +:+ pretty z) =
       Some (CInt (if decide (z = road_type scenario) then 1 else 0))) ∧
      ("weather_conditions_" +:+ pretty z ∈ derived_schema →
       feature out ("weather_conditions_" +:+ pretty z) =
       Some (CInt (if decide (z = wc) then 1 else 0))) ∧
      ("light_conditions_" +:+ pretty z ∈ derived_schema →
       feature out ("light_conditions_" +:+ pretty z) =
       Some (CInt (if decide (z = lc) then 1 else 0))) ∧
      ("junction_detail_" +:+ pretty z ∈ derived_schema →
       feature out ("junction_detail_" +:+ pretty z) =
       Some (CInt (if decide (z = jc) then 1 else 0))).
Proof.
  apply (preprocess_input_one_hot_groups derived_schema (to_data scenario) scenario).
  - apply to_data_carries.
  - apply in_domain_scenario.
  - apply derived_schema_no_raw_columns.
Defined.

Lemma preprocess_input_derived_features_witness :
  ∃ out, preprocess_input derived_schema (to_data scenario) = Some out ∧
    ∀ k c, (k, c) ∈ derived_features scenario → k ∈ derived_schema →
           feature out k = Some c.
Proof.
  apply (preprocess_input_derived_features derived_schema (to_data scenario) scenario).
  - apply to_data_carries.
  - apply derived_schema_no_raw_columns.
Defined.

(** *** The speed features, for every request and schema *)

Lemma high_speed_features_zero_witness :
  ∃ out, preprocess_input speed_schema (to_data scenario) = Some out ∧
    ∀ k, k ∈ ["high_speed"; "night_speed_risk"; "weather_speed_risk"] →
         k ∈ speed_schema → feature out k = Some (CInt 0).
Proof.
  apply (high_speed_features_zero speed_schema (to_data scenario) scenario).
  - apply to_data_carries.
  - apply in_domain_scenario.
Defined.

Lemma speed_limit_feature_zeroed_witness :
  ∃ out, preprocess_input speed_schema (to_data scenario) = Some out ∧
         feature out "speed_limit" = Some (CFloat 0).
Proof.
  apply (speed_limit_feature_zeroed speed_schema (to_data scenario) scenario).
  - apply to_data_carries.
  - unfold speed_schema. apply elem_of_cons. by left.
Defined.

(** ** The order of the calibrated probabilities *)

Section CalibrationOrder.
Local Open Scope R_scope.

Lemma exp_convex (t a b : R) :
  0 <= t <= 1 → exp (t * a + (1 - t) * b) <= t * exp a + (1 - t) * exp b.
Proof.
  intros Ht. set (m := t * a + (1 - t) * b).
  assert (Hstep : ∀ c, exp m * (1 + (c - m)) <= exp c).
  { intros c. replace c with (m + (c - m)) at 2 by lra.
    rewrite exp_plus. apply Rmult_le_compat_l; [left; apply exp_pos|].
    apply exp_ineq1_le. }
  pose proof (Hstep a) as Ha. pose proof (Hstep b) as Hb.
  pose proof (exp_pos m) as Hm.
  assert (t * (exp m * (1 + (a - m))) + (1 - t) * (exp m * (1 + (b - m))) = exp m) as Heq.
  { unfold m. ring. }
  rewrite <- Heq.
  apply Rplus_le_compat; apply Rmult_le_compat_l; lra.
Qed.

Lemma Rpower_ge_1 (y q : R) : 0 < y <= 1 → q <= 0 → 1 <= Rpower y q.
Proof.
  intros [Hy0 Hy1] Hq. unfold Rpower. rewrite <- exp_0.
  assert (ln y <= 0).
  { rewrite <- ln_1. destruct (Req_dec_T y 1) as [->|Hne]; [lra|].
    left. apply ln_increasing; lra. }
  destruct (Req_dec_T (q * ln y) 0) as [->|Hne]; [lra|].
  left. apply exp_increasing. nra.
Qed.

(** On [[0, 1]] the power with an exponent [p] of [(0, 1]] grows at least
    [p] times as fast as its argument. *)
Lemma power_slope (x y p : R) :
  0 <= x <= y → y <= 1 → 0 < p <= 1 → p * (y - x) <= power y p - power x p.
Proof.
  intros [Hx Hxy] Hy Hp. unfold power.
  destruct (Req_dec_T y 0) as [Hy0|Hy0].
  { assert (x = 0) by lra. subst. destruct (Req_dec_T 0 0); lra. }
  assert (0 < y) as Hypos by lra.
  pose proof (Rpower_ge_1 y (p - 1) (conj Hypos Hy) ltac:(lra)) as Hq.
  assert (Rpower y p = y * Rpower y (p - 1)) as Hyp.
  { replace p with (1 + (p - 1)) at 1 by lra.
    rewrite Rpower_plus, Rpower_1 by done. done. }
  destruct (Req_dec_T x 0) as [Hx0|Hx0].
  { subst. rewrite Hyp.
    assert (p * y <= y) by nra.
    assert (y <= y * Rpower y (p - 1)) by nra.
    replace (p * (y - 0)) with (p * y) by ring. lra. }
  assert (0 < x) as Hxpos by lra.
  assert (Rpower x p * Rpower y (1 - p) <= p * x + (1 - p) * y) as Hamgm.
  { unfold Rpower. rewrite <- exp_plus.
    rewrite <- (exp_ln x) at 2 by done. rewrite <- (exp_ln y) at 2 by done.
    apply exp_convex. lra. }
  assert (Rpower y (1 - p) * Rpower y (p - 1) = 1) as Hinv.
  { rewrite <- Rpower_plus. replace (1 - p + (p - 1)) with 0 by lra.
    apply Rpower_O. done. }
  assert (Rpower x p <= (p * x + (1 - p) * y) * Rpower y (p - 1)) as Hxp.
  { replace (Rpower x p) with (Rpower x p * Rpower y (1 - p) * Rpower y (p - 1)).
    - apply Rmult_le_compat_r; [lra | done].
    - rewrite Rmult_assoc, Hinv. lra. }
  rewrite Hyp.
  assert (0 <= p * (y - x)) as Hpos by (apply Rmult_le_pos; lra).
  assert (p * (y - x) <= Rpower y (p - 1) * (p * (y - x))) as Hscale.
  { rewrite <- (Rmult_1_l (p * (y - x))) at 1.
    apply Rmult_le_compat_r; done. }
  lra.
Qed.

Lemma bias_corrected_slope (x y : R) :
  0 <= x <= y → y <= 1 → 0.5 * (y - x) <= bias_corrected y - bias_corrected x.
Proof.
  intros [Hx Hxy] Hy. unfold bias_corrected.
  assert (y * 0.5 / (y * 0.5 + (1 - y)) - x * 0.5 / (x * 0.5 + (1 - x)) =
          0.5 * (y - x) * (/ (y * 0.5 + (1 - y)) * / (x * 0.5 + (1 - x)))) as ->.
  { field. lra. }
  assert (1 <= / (y * 0.5 + (1 - y))) as H1.
  { rewrite <- Rinv_1 at 1. apply Rinv_le_contravar; lra. }
  assert (1 <= / (x * 0.5 + (1 - x))) as H2.
  { rewrite <- Rinv_1 at 1. apply Rinv_le_contravar; lra. }
  assert (1 <= / (y * 0.5 + (1 - y)) * / (x * 0.5 + (1 - x))) as H12 by nra.
  rewrite <- (Rmult_1_r (0.5 * (y - x))) at 1.
  apply Rmult_le_compat_l; lra.
Qed.

Lemma bias_corrected_half (raw : R) :
  0 <= raw <= 1 → (bias_corrected raw <= 0.5 ↔ raw <= 2 / 3).
Proof.
  intros Hr. unfold bias_corrected.
  assert (0 < raw * 0.5 + (1 - raw)) as Hd by lra.
  split; intros H.
  - apply (Rmult_le_compat_r _ _ _ (Rlt_le _ _ Hd)) in H.
    unfold Rdiv in H. rewrite Rmult_assoc, Rinv_l in H by lra. lra.
  - apply (Rmult_le_reg_r (raw * 0.5 + (1 - raw))); [done|].
    unfold Rdiv. rewrite Rmult_assoc, Rinv_l by lra. lra.
Qed.

Lemma clamp_monotone (x y : R) : x <= y → clamp 0 1 x <= clamp 0 1 y.
Proof.
  intros H. unfold clamp, Rmax, Rmin.
  repeat destruct (Rle_dec _ _); lra.
Qed.

(** The value before the clamp. *)
Lemma uncalibrated_low (raw : R) :
  0 <= raw <= 2 / 3 →
  remapped raw = 0.2 * power (bias_corrected raw * 2) 0.33 ∧
  correction raw = Rabs (raw - 0.5) * 0.02 ∧
  0 <= remapped raw <= 0.2.
Proof.
  intros Hr. assert (0 <= raw <= 1) as Hr1 by lra.
  pose proof (proj2 (bias_corrected_half raw Hr1) (proj2 Hr)) as Ha.
  pose proof (bias_corrected_range raw Hr1) as Hb.
  assert (remapped raw = 0.2 * power (bias_corrected raw * 2) 0.33) as Hrem.
  { unfold remapped. destruct (Rlt_dec 0.5 (bias_corrected raw)); [lra | done]. }
  pose proof (power_range (bias_corrected raw * 2) 0.33 ltac:(lra) ltac:(lra)) as Hp.
  split; [done|]. split; [|lra].
  unfold correction. destruct (Rlt_dec (remapped raw) 0.4); [done | lra].
Qed.

Lemma uncalibrated_high (raw : R) :
  2 / 3 < raw <= 1 →
  remapped raw = 0.2 + ((bias_corrected raw - 0.5) * 2) ^ 5 * 0.7 ∧
  0.2 <= remapped raw <= 0.9 ∧
  (raw - 0.5) * 0.02 <= correction raw <= (raw - 0.5) * 0.05.
Proof.
  intros Hr. assert (0 <= raw <= 1) as Hr1 by lra.
  pose proof (bias_corrected_half raw Hr1) as Ha.
  pose proof (bias_corrected_range raw Hr1) as Hb.
  assert (0.5 < bias_corrected raw) as Hhigh.
  { destruct (Rle_dec (bias_corrected raw) 0.5) as [Hle|]; [|lra].
    apply Ha in Hle. lra. }
  assert (remapped raw = 0.2 + ((bias_corrected raw - 0.5) * 2) ^ 5 * 0.7) as Hrem.
  { unfold remapped. destruct (Rlt_dec 0.5 (bias_corrected raw)); [done | lra]. }
  pose proof (pow5_range ((bias_corrected raw - 0.5) * 2) ltac:(lra)) as Hp.
  split; [done|]. split; [lra|].
  unfold correction. rewrite Rabs_pos_eq by lra.
  destruct (Rlt_dec (remapped raw) 0.4); lra.
Qed.

Lemma uncalibrated_monotone (x y : R) :
  0 <= x <= y → y <= 1 →
  remapped x + correction x <= remapped y + correction y.
Proof.
  intros [Hx Hxy] Hy.
  assert (Hlow : ∀ u v, 0 <= u <= v → v <= 2 / 3 →
            remapped u + correction u <= remapped v + correction v).
  { intros u v [Hu Huv] Hv.
    destruct (uncalibrated_low u ltac:(lra)) as (-> & -> & _).
    destruct (uncalibrated_low v ltac:(lra)) as (-> & -> & _).
    pose proof (bias_corrected_slope u v ltac:(lra) ltac:(lra)) as Hs.
    pose proof (bias_corrected_range u ltac:(lra)) as Hbu.
    pose proof (proj2 (bias_corrected_half v ltac:(lra)) Hv) as Hbv.
    pose proof (power_slope (bias_corrected u * 2) (bias_corrected v * 2) 0.33
                  ltac:(lra) ltac:(lra) ltac:(lra)) as Hp.
    assert (Rabs (u - 0.5) - Rabs (v - 0.5) <= v - u) as Habs.
    { unfold Rabs. repeat destruct (Rcase_abs _); lra. }
    lra. }
  assert (Hhigh : ∀ u v, 2 / 3 < u <= v → v <= 1 →
            remapped u + correction u <= remapped v + correction v).
  { intros u v [Hu Huv] Hv.
    destruct (uncalibrated_high u ltac:(lra)) as (Hru & Hbu & _).
    destruct (uncalibrated_high v ltac:(lra)) as (Hrv & Hbv & _).
    pose proof (bias_corrected_slope u v ltac:(lra) ltac:(lra)) as Hs.
    pose proof (bias_corrected_range v ltac:(lra)) as Hav.
    pose proof (proj1 (bias_corrected_half u ltac:(lra))) as Hau.
    assert (0.5 < bias_corrected u) as Hu5.
    { destruct (Rle_dec (bias_corrected u) 0.5) as [Hle|]; [|lra].
      apply Hau in Hle. lra. }
    assert (remapped u <= remapped v) as Hrem.
    { rewrite Hru, Hrv.
      pose proof (pow_incr ((bias_corrected u - 0.5) * 2)
                    ((bias_corrected v - 0.5) * 2) 5 ltac:(lra)). lra. }
    unfold correction. rewrite !Rabs_pos_eq by lra.
    destruct (Rlt_dec (remapped u) 0.4); destruct (Rlt_dec (remapped v) 0.4); lra. }
  destruct (Rle_dec y (2 / 3)) as [Hy3|Hy3].
  - apply Hlow; lra.
  - destruct (Rle_dec x (2 / 3)) as [Hx3|Hx3].
    + (* x in the low band, y in the high band: compare both with 2/3 *)
      pose proof (Hlow x (2 / 3) ltac:(lra) ltac:(lra)) as Hmid.
      destruct (uncalibrated_low (2 / 3) ltac:(lra)) as (_ & Hc3 & Hr3).
      destruct (uncalibrated_high y ltac:(lra)) as (_ & Hry & Hcy).
      rewrite Hc3 in Hmid. rewrite Rabs_pos_eq in Hmid by lra. lra.
    + apply Hhigh; lra.
Qed.

Lemma calibrated_monotone (x y : R) :
  0 <= x <= y → y <= 1 → calibrated x <= calibrated y.
Proof.
  intros Hx Hy. unfold calibrated. apply clamp_monotone.
  by apply uncalibrated_monotone.
Qed.

End CalibrationOrder.

(** ** The shape of the calibration *)

Section CalibrationShape.
Local Open Scope R_scope.

Lemma calibrated_unclamped (raw : R) :
  0 <= raw <= 1 → calibrated raw = remapped raw + correction raw.
Proof.
  intros Hr. pose proof (remapped_range raw Hr). pose proof (correction_range raw Hr).
  unfold calibrated, clamp, Rmax, Rmin.
  repeat destruct (Rle_dec _ _); lra.
Qed.

Lemma calibrated_0 : calibrated 0 = 0.01.
Proof.
  rewrite calibrated_unclamped by lra.
  destruct (uncalibrated_low 0 ltac:(lra)) as (-> & -> & _).
  rewrite bias_corrected_0. unfold power, Rabs.
  destruct (Req_dec_T (0 * 2) 0); [|lra]. destruct (Rcase_abs _); lra.
Qed.

Lemma calibrated_range (raw : R) : 0 <= raw <= 1 → 0.01 <= calibrated raw <= 0.925.
Proof.
  intros Hr. split; [|by apply calibrated_le].
  rewrite <- calibrated_0. apply calibrated_monotone; lra.
Qed.

(** X15: the clamp of [adjust_probability] never acts on a probability:
    the value is the remap plus the correction, between 0.01 and 0.925. *)
Theorem adjust_probability_unclamped (raw : R) :
  0 <= raw <= 1 →
  adjust_probability raw = Some (remapped raw + correction raw) ∧
  0.01 <= remapped raw + correction raw <= 0.925.
Proof.
  intros Hr. rewrite adjust_probability_calibrated by done.
  rewrite <- calibrated_unclamped by done. split; [done|].
  by apply calibrated_range.
Qed.

Lemma adjust_probability_unclamped_witness :
  adjust_probability 0.5 = Some (remapped 0.5 + correction 0.5) ∧
  0.01 <= remapped 0.5 + correction 0.5 <= 0.925.
Proof. apply adjust_probability_unclamped. lra. Defined.

(** X17: the two bands of the remap: a raw probability up to 2/3 is
    remapped to at most 0.2 and calibrated to at most 0.21, a higher one is
    remapped and calibrated to at least 0.2. *)
Theorem adjust_probability_bands (raw : R) :
  0 <= raw <= 1 →
  ∃ p, adjust_probability raw = Some p ∧
       (raw <= 2 / 3 → remapped raw <= 0.2 ∧ p <= 0.21) ∧
       (2 / 3 < raw → 0.2 <= remapped raw ∧ 0.2 <= p).
Proof.
  intros Hr. exists (calibrated raw).
  split; [by apply adjust_probability_calibrated|].
  rewrite calibrated_unclamped by done. split.
  - intros Hlow. destruct (uncalibrated_low raw ltac:(lra)) as (_ & Hc & Hrem).
    rewrite Hc. assert (Rabs (raw - 0.5) <= 0.5) by (apply Rabs_le; lra). lra.
  - intros Hhigh. destruct (uncalibrated_high raw ltac:(lra)) as (_ & Hrem & Hc). lra.
Qed.

Lemma adjust_probability_bands_witness :
  ∃ p, adjust_probability 0.5 = Some p ∧
       (0.5 <= 2 / 3 → remapped 0.5 <= 0.2 ∧ p <= 0.21) ∧
       (2 / 3 < 0.5 → 0.2 <= remapped 0.5 ∧ 0.2 <= p).
Proof. apply adjust_probability_bands. lra. Defined.

Lemma bias_corrected_098 : bias_corrected 0.98 = 49 / 51.
Proof. unfold bias_corrected. lra. Qed.

Lemma calibrated_098 : calibrated 0.98 <= 0.69.
Proof.
  rewrite calibrated_unclamped by lra.
  destruct (uncalibrated_high 0.98 ltac:(lra)) as (-> & _ & Hc).
  rewrite bias_corrected_098.
  assert (((49 / 51 - 0.5) * 2) ^ 5 <= 0.665) as Hpow.
  { replace ((49 / 51 - 0.5) * 2) with (47 / 51) by lra.
    cbn [pow]. lra. }
  lra.
Qed.

Lemma high_risk_raw (raw base : R) :
  0 <= raw <= 1 → base <= 0.5 →
  risk_level (final_probability (calibrated raw) base) = "High Risk" → 0.98 < raw.
Proof.
  intros Hr Hb Hhigh%risk_level_high. unfold final_probability in Hhigh.
  destruct (Rlt_dec 0.98 raw) as [|Hn]; [done|]. exfalso.
  pose proof (calibrated_monotone raw 0.98 ltac:(lra) ltac:(lra)) as Hm.
  pose proof calibrated_098. lra.
Qed.

Lemma high_risk_triggers (raw : R) (req : RequestInput) :
  0 <= raw <= 1 →
  risk_level (final_probability (calibrated raw)
                (0.1 * INR (count_true (base_risk_triggers req)))) = "High Risk" →
  (2 ≤ count_true (base_risk_triggers req))%nat.
Proof.
  intros Hr Hhigh%risk_level_high. unfold final_probability in Hhigh.
  pose proof (calibrated_le raw Hr) as Ha.
  destruct (count_true (base_risk_triggers req)) as [|[|n]]; cbn [INR] in Hhigh; [lra|lra|lia].
Qed.

End CalibrationShape.

(** ** More on the endpoint *)

Lemma elem_of_fired (m : string) (rs : list (bool * string)) :
  m ∈ fired rs ↔ (true, m) ∈ rs.
Proof.
  unfold fired. induction rs as [|[[] m'] rs IH]; cbn [flat_map fst snd app].
  - split; intros H; by apply elem_of_nil in H.
  - rewrite !elem_of_cons, IH. split; intros [H|H]; auto; left; congruence.
  - rewrite elem_of_cons, IH. split; [auto | intros [H|H]; [done | auto]].
Qed.

Lemma fallback_not_fired (req : RequestInput) (level : string) (factors : list string) :
  "No specific recommendations needed at this time"
    ∉ fired (recommendation_rules req level factors).
Proof.
  rewrite elem_of_fired. unfold recommendation_rules.
  destruct (decide (level = "High Risk")); unfold high_risk_rules, not_high_risk_rules;
    rewrite !not_elem_of_cons; repeat split; try apply not_elem_of_nil;
    intros H; inversion H.
Qed.

(** X18: the rejections of [predict], once [request.get_json()] has
    returned a JSON object whose values are integers or strings: without
    a model the answer is the 500 of the first test, before any
    validation; with a model, the answer is a 400 exactly for the empty
    object and for the objects [validate_input] finds an error in, the
    latter getting the errors of [validate_input], whatever the
    classifier and the schema. *)
Theorem predict_rejections (predict_proba : list (string * cell) → R)
    (feature_names : list string) (data : gmap string value) :
  predict None feature_names data =
    Response500 "Model not loaded. Please try again later." ∧
  predict (Some predict_proba) feature_names ∅ = Response400 "No data provided" None ∧
  ((∃ e d, predict (Some predict_proba) feature_names data = Response400 e d) ↔
   data = ∅ ∨ ¬ valid_request data) ∧
  (data ≠ ∅ → ¬ valid_request data →
   validate_input data ≠ ∅ ∧
   predict (Some predict_proba) feature_names data =
     Response400 "Invalid input data" (Some (validate_input data))).
Proof.
  split; [done|]. split; [done|].
  assert (Hinvalid : data ≠ ∅ → ¬ valid_request data →
    validate_input data ≠ ∅ ∧
    predict (Some predict_proba) feature_names data =
      Response400 "Invalid input data" (Some (validate_input data))).
  { intros Hne Hinv.
    assert (validate_input data ≠ ∅) as Herr
      by (intros He; by apply Hinv, validate_input_empty).
    split; [done|]. unfold predict.
    by rewrite bool_decide_eq_false_2, bool_decide_eq_true_2. }
  split; [|done]. split.
  - intros (e & d & Hp). destruct (decide (data = ∅)) as [|Hne]; [by left|]. right.
    intros Hv. unfold predict in Hp.
    rewrite bool_decide_eq_false_2 in Hp by done.
    rewrite bool_decide_eq_false_2 in Hp
      by (intros H; apply H; by apply validate_input_empty).
    destruct (preprocess_input feature_names data); [|done]. cbn [mbind option_bind] in Hp.
    destruct (base_risk_score data); [|done]. cbn [mbind option_bind] in Hp.
    destruct (adjust_probability _); [|done]. cbn [mbind option_bind] in Hp.
    destruct (calculate_risk_factors data); [|done]. cbn [mbind option_bind] in Hp.
    destruct (generate_recommendations _ _ _); done.
  - intros [->|Hinv]; [by eexists _, _|].
    destruct (decide (data = ∅)) as [->|Hne]; [by eexists _, _|].
    destruct (Hinvalid Hne Hinv) as (_ & ->). by eexists _, _.
Qed.

Section Payload.
Local Open Scope R_scope.

(** X19: the success payload of [predict] on a valid request of integers
    and strings: it echoes the request and the classifier's answer on
    the encoded vector, its risk factors and recommendations are the
    ones of the two functions, and its probability is positive and at
    most 0.7975. *)
Theorem predict_payload (predict_proba : list (string * cell) → R)
    (feature_names : list string) (data : gmap string value) (req : RequestInput) :
  valid_request data → carries data req →
  (∀ fv, 0 <= predict_proba fv <= 1) →
  ∃ fv level p factors recs,
    preprocess_input feature_names data = Some fv ∧
    predict (Some predict_proba) feature_names data =
      Response200 level p (predict_proba fv) factors recs data ∧
    level = risk_level p ∧
    calculate_risk_factors data = Some factors ∧
    generate_recommendations data level factors = Some recs ∧
    0 < p <= 0.7975.
Proof.
  intros Hv Hc Hm.
  destruct (predict_valid predict_proba feature_names data req Hv Hc Hm)
    as (fv & base & Hfv & Hbase & Hp). cbn zeta in Hp.
  destruct (base_risk_score_triggers data req Hc) as (base' & Hbase' & Hcount).
  assert (base' = base) as -> by congruence.
  eexists fv, _, _, _, _. split; [done|]. split; [exact Hp|]. split; [done|].
  split; [by apply calculate_risk_factors_analyze|].
  split; [by apply generate_recommendations_recommend|].
  pose proof (calibrated_range (predict_proba fv) (Hm fv)) as Hrange.
  pose proof (count_true_le (base_risk_triggers req)) as Hle.
  change (length (base_risk_triggers req)) with 5%nat in Hle.
  apply le_INR in Hle. replace (INR 5) with 5 in Hle by (cbn [INR]; lra).
  pose proof (pos_INR (count_true (base_risk_triggers req))).
  unfold final_probability. lra.
Qed.

Lemma predict_payload_witness :
  ∃ fv level p factors recs,
    preprocess_input speed_schema (to_data scenario) = Some fv ∧
    predict (Some (λ _, 1)) speed_schema (to_data scenario) =
      Response200 level p ((λ _, 1) fv) factors recs (to_data scenario) ∧
    level = risk_level p ∧
    calculate_risk_factors (to_data scenario) = Some factors ∧
    generate_recommendations (to_data scenario) level factors = Some recs ∧
    0 < p <= 0.7975.
Proof.
  apply (predict_payload (λ _, 1) speed_schema (to_data scenario) scenario).
  - apply valid_to_data, in_domain_scenario.
  - apply to_data_carries.
  - intros _. lra.
Defined.

(** X20: a High Risk answer of [predict] needs a raw probability above
    0.98 and comes with at least two risk factors and the patrol
    recommendation; any other answer recommends monitoring or continued
    maintenance; no answer of [predict] carries the fallback message. *)
Theorem predict_high_risk (predict_proba : list (string * cell) → R)
    (feature_names : list string) (data : gmap string value) (req : RequestInput) :
  valid_request data → carries data req →
  (∀ fv, 0 <= predict_proba fv <= 1) →
  ∃ level p raw factors recs,
    predict (Some predict_proba) feature_names data =
      Response200 level p raw factors recs data ∧
    ("No specific recommendations needed at this time" ∉ recs) ∧
    (level = "High Risk" →
     0.98 < raw ∧ (2 ≤ length factors)%nat ∧
     "Increase police patrols in the area" ∈ recs) ∧
    (level ≠ "High Risk" →
     "Monitor conditions and maintain current safety measures" ∈ recs ∨
     "Continue regular maintenance and monitoring" ∈ recs).
Proof.
  intros Hv Hc Hm.
  destruct (predict_valid predict_proba feature_names data req Hv Hc Hm)
    as (fv & base & Hfv & Hbase & Hp). cbn zeta in Hp.
  destruct (base_risk_score_triggers data req Hc) as (base' & Hbase' & Hcount).
  assert (base' = base) as -> by congruence.
  set (level := risk_level (final_probability (calibrated (predict_proba fv)) base)) in *.
  eexists level, _, _, _, _. split; [exact Hp|].
  assert (Hfired : ∀ m, (true, m) ∈ recommendation_rules req level (analyze req) →
            recommend req level (analyze req) =
              fired (recommendation_rules req level (analyze req)) ∧
            m ∈ recommend req level (analyze req)).
  { intros m Hin%elem_of_fired. unfold recommend.
    destruct (fired (recommendation_rules req level (analyze req))) as [|a l] eqn:Hf;
      [by apply elem_of_nil in Hin | done]. }
  assert (Hpair : (true, "Monitor conditions and maintain current safety measures")
                    ∈ not_high_risk_rules req (analyze req) ∨
                  (true, "Continue regular maintenance and monitoring")
                    ∈ not_high_risk_rules req (analyze req)).
  { unfold not_high_risk_rules. destruct (analyze req) as [|a l].
    - right. do 4 right. left.
    - left. do 3 right. left. }
  assert (Hhigh : level = "High Risk" →
            0.98 < predict_proba fv ∧ (2 ≤ length (analyze req))%nat ∧
            (true, "Increase police patrols in the area")
              ∈ high_risk_rules req (analyze req)).
  { intros Hl. unfold level in Hl. split.
    - apply (high_risk_raw _ base (Hm fv)); [|done].
      pose proof (count_true_le (base_risk_triggers req)) as Hle.
      change (length (base_risk_triggers req)) with 5%nat in Hle.
      apply le_INR in Hle. replace (INR 5) with 5 in Hle by (cbn [INR]; lra). lra.
    - rewrite Hcount in Hl. apply high_risk_triggers in Hl; [|done].
      rewrite length_analyze. split; [done|].
      unfold high_risk_rules. destruct (analyze req) as [|a l] eqn:Ha.
      + rewrite <- length_analyze, Ha in Hl. cbn in Hl. lia.
      + do 4 right. left. }
  split; [|split].
  - destruct (decide (level = "High Risk")) as [Hl|Hl].
    + destruct (Hhigh Hl) as (_ & _ & Hin).
      destruct (Hfired "Increase police patrols in the area") as (-> & _).
      { unfold recommendation_rules. by rewrite decide_True. }
      apply fallback_not_fired.
    + destruct Hpair as [Hin|Hin];
        (edestruct Hfired as (-> & _);
         [unfold recommendation_rules; rewrite decide_False by done; exact Hin|]);
        apply fallback_not_fired.
  - intros Hl. destruct (Hhigh Hl) as (Hraw & Hlen & Hin). repeat split; [done..|].
    apply Hfired. unfold recommendation_rules. by rewrite decide_True.
  - intros Hl. destruct Hpair as [Hin|Hin]; [left|right];
      apply Hfired; unfold recommendation_rules; by rewrite decide_False.
Qed.

Lemma predict_high_risk_witness :
  ∃ level p raw factors recs,
    predict (Some (λ _, 1)) speed_schema (to_data scenario) =
      Response200 level p raw factors recs (to_data scenario) ∧
    ("No specific recommendations needed at this time" ∉ recs) ∧
    (level = "High Risk" →
     0.98 < raw ∧ (2 ≤ length factors)%nat ∧
     "Increase police patrols in the area" ∈ recs) ∧
    (level ≠ "High Risk" →
     "Monitor conditions and maintain current safety measures" ∈ recs ∨
     "Continue regular maintenance and monitoring" ∈ recs).
Proof.
  apply (predict_high_risk (λ _, 1) speed_schema (to_data scenario) scenario).
  - apply valid_to_data, in_domain_scenario.
  - apply to_data_carries.
  - intros _. lra.
Defined.

End Payload.
